(** * Quantum sieving MOF screening notebook: a shallow embedding

    The notebook [quantum_sieving_mof_screening.ipynb] is a straight-line
    script over pandas and scikit-learn:

    - cell 2 reads the MOF table and adds the derived column [Target];
    - cell 3 selects nineteen columns and min-max normalises the eighteen
      feature columns;
    - cell 4 drops the rows that hold a missing value and splits the frame
      into the feature matrix [X] and the target vector [y];
    - cell 5 calls [train_test_split] with [test_size=0.2] and
      [random_state=42];
    - cell 6 fits a linear regression and prints the mean squared error.

    Cells 2 to 5 are embedded below, together with the library operations
    they call.  Numbers are modelled as IEEE-754 values whose finite part is
    an exact rational: the special values (NaN, which pandas uses as the
    missing marker, and the two infinities produced by a division by zero)
    behave as in binary64, while rounding, overflow and the sign of zero are
    outside the model. *)

From Stdlib Require Import ZArith QArith Qround Lqa Lia.
From Stdlib Require Import List String Bool Arith Permutation.
Import ListNotations.

Close Scope Q_scope.
Close Scope Z_scope.
Open Scope nat_scope.

(** * Results of fallible code *)

Module Result.

(** The two exceptions the modelled calls can raise. *)
Inductive exn : Type :=
| KeyError (key : string)
| ValueError (msg : string).

(** [OutOfFuel] stands for a loop of the source that had not finished when
    the bound of the model was reached; no pandas operation produces it. *)
Inductive result (A : Type) : Type :=
| Ok (a : A)
| Raise (e : exn)
| OutOfFuel.

Arguments Ok {A} a.
Arguments Raise {A} e.
Arguments OutOfFuel {A}.

Definition bind {A B : Type} (m : result A) (k : A -> result B) : result B :=
  match m with
  | Ok a => k a
  | Raise e => Raise e
  | OutOfFuel => OutOfFuel
  end.

End Result.
Export Result.

Notation "'do' x <- m ; k" := (bind m (fun x => k))
  (at level 10, x name, m at level 99, k at level 200).

(** * float64 values *)

Module Float64.

Inductive float64 : Type :=
| Finite (q : Q)
| Inf (negative : bool)
| NaN.

Definition PInf : float64 := Inf false.
Definition NInf : float64 := Inf true.

(** [pd.isna] on a float: NaN is the one missing marker of a float column. *)
Definition isna (x : float64) : bool :=
  match x with NaN => true | _ => false end.

Definition notna (x : float64) : bool := negb (isna x).

Definition Qis_zero (q : Q) : bool := (Qnum q =? 0)%Z.
Definition Qis_neg (q : Q) : bool := (Qnum q <? 0)%Z.

Definition Qltb (a b : Q) : bool :=
  match (a ?= b)%Q with Lt => true | _ => false end.

Definition fadd (x y : float64) : float64 :=
  match x, y with
  | NaN, _ | _, NaN => NaN
  | Finite a, Finite b => Finite (Qred (a + b)%Q)
  | Finite _, Inf s | Inf s, Finite _ => Inf s
  | Inf s, Inf t => if Bool.eqb s t then Inf s else NaN
  end.

Definition fsub (x y : float64) : float64 :=
  match x, y with
  | NaN, _ | _, NaN => NaN
  | Finite a, Finite b => Finite (Qred (a - b)%Q)
  | Finite _, Inf s => Inf (negb s)
  | Inf s, Finite _ => Inf s
  | Inf s, Inf t => if Bool.eqb s t then NaN else Inf s
  end.

Definition fmul (x y : float64) : float64 :=
  match x, y with
  | NaN, _ | _, NaN => NaN
  | Finite a, Finite b => Finite (Qred (a * b)%Q)
  | Finite a, Inf s | Inf s, Finite a =>
      if Qis_zero a then NaN else Inf (xorb (Qis_neg a) s)
  | Inf s, Inf t => Inf (xorb s t)
  end.

(** Division of floats never raises: a nonzero number over zero is an
    infinity, zero over zero is NaN. *)
Definition fdiv (x y : float64) : float64 :=
  match x, y with
  | NaN, _ | _, NaN => NaN
  | Finite a, Finite b =>
      if Qis_zero b
      then (if Qis_zero a then NaN else Inf (Qis_neg a))
      else Finite (Qred (a / b)%Q)
  | Finite _, Inf _ => Finite 0%Q
  | Inf s, Finite b => Inf (xorb s (Qis_neg b))
  | Inf _, Inf _ => NaN
  end.

(** [x < y]; false as soon as one side is NaN. *)
Definition fltb (x y : float64) : bool :=
  match x, y with
  | NaN, _ | _, NaN => false
  | Finite a, Finite b => Qltb a b
  | Finite _, Inf s => negb s
  | Inf s, Finite _ => s
  | Inf s, Inf t => s && negb t
  end.

(** The reductions behind [Series.min()] and [Series.max()] with the default
    [skipna=True]: NaN entries are passed over, and the result is NaN when
    nothing else is left. *)
Definition fmin (x y : float64) : float64 :=
  match x, y with
  | NaN, _ => y
  | _, NaN => x
  | _, _ => if fltb y x then y else x
  end.

Definition fmax (x y : float64) : float64 :=
  match x, y with
  | NaN, _ => y
  | _, NaN => x
  | _, _ => if fltb x y then y else x
  end.

End Float64.
Export Float64.

(** * pandas: Series and DataFrame *)

Module Pandas.

(** The values of a float64 column.  A column taken out of a frame shares the
    frame's index, so the operations between two columns of one frame below
    are positional. *)
Definition Series : Type := list float64.

(** A frame is column oriented: the row labels and the named columns, in
    their order. *)
Record DataFrame : Type := mkDataFrame {
  index : list nat;
  columns : list (string * Series)
}.

Definition nrows (df : DataFrame) : nat := List.length (index df).

Definition column_labels (df : DataFrame) : list string :=
  map fst (columns df).

Fixpoint lookup (key : string) (cols : list (string * Series)) : option Series :=
  match cols with
  | [] => None
  | (k, s) :: rest => if String.eqb k key then Some s else lookup key rest
  end.

(** [df[key]] *)
Definition getitem (df : DataFrame) (key : string) : result Series :=
  match lookup key (columns df) with
  | Some s => Ok s
  | None => Raise (KeyError key)
  end.

Fixpoint assign (key : string) (s : Series) (cols : list (string * Series))
  : list (string * Series) :=
  match cols with
  | [] => [(key, s)]
  | (k, c) :: rest =>
      if String.eqb k key then (k, s) :: rest else (k, c) :: assign key s rest
  end.

(** [df[key] = s]: an existing column is replaced where it stands, a new one
    is appended. *)
Definition setitem (df : DataFrame) (key : string) (s : Series) : DataFrame :=
  {| index := index df; columns := assign key s (columns df) |}.

Fixpoint getitem_columns (df : DataFrame) (keys : list string)
  : result (list (string * Series)) :=
  match keys with
  | [] => Ok []
  | k :: rest =>
      do s <- getitem df k;
      do cols <- getitem_columns df rest;
      Ok ((k, s) :: cols)
  end.

(** [df[keys]] with a list of labels: a new frame holding these columns. *)
Definition getitem_list (df : DataFrame) (keys : list string) : result DataFrame :=
  do cols <- getitem_columns df keys;
  Ok {| index := index df; columns := cols |}.

(** Arithmetic between a scalar and a column, and between two columns. *)
Definition scalar_mul (c : float64) (s : Series) : Series := map (fmul c) s.
Definition mul_scalar (s : Series) (c : float64) : Series :=
  map (fun v => fmul v c) s.
Definition scalar_div (c : float64) (s : Series) : Series := map (fdiv c) s.
Definition sub_scalar (s : Series) (c : float64) : Series :=
  map (fun v => fsub v c) s.
Definition div_scalar (s : Series) (c : float64) : Series :=
  map (fun v => fdiv v c) s.
Definition add_series (a b : Series) : Series :=
  map (fun p => fadd (fst p) (snd p)) (combine a b).

(** [s.min()] and [s.max()] *)
Definition series_min (s : Series) : float64 := fold_right fmin NaN s.
Definition series_max (s : Series) : float64 := fold_right fmax NaN s.

Fixpoint select {A : Type} (mask : list bool) (l : list A) : list A :=
  match mask, l with
  | true :: m, x :: t => x :: select m t
  | false :: m, _ :: t => select m t
  | _, _ => []
  end.

(** The row at position [i] holds no missing value. *)
Definition row_notna (df : DataFrame) (i : nat) : bool :=
  forallb (fun c => notna (nth i (snd c) NaN)) (columns df).

Definition notna_mask (df : DataFrame) : list bool :=
  map (row_notna df) (seq 0 (nrows df)).

(** [df.dropna()]: keeps, with their labels, the rows without a missing
    value. *)
Definition dropna (df : DataFrame) : DataFrame :=
  {| index := select (notna_mask df) (index df);
     columns := map (fun c => (fst c, select (notna_mask df) (snd c))) (columns df) |}.

Definition take {A : Type} (d : A) (positions : list nat) (l : list A) : list A :=
  map (fun i => nth i l d) positions.

(** [df.iloc[positions]] *)
Definition iloc (df : DataFrame) (positions : list nat) : DataFrame :=
  {| index := take 0 positions (index df);
     columns := map (fun c => (fst c, take NaN positions (snd c))) (columns df) |}.

(** [pd.DataFrame.from_records(rows, columns=labels)], the shape in which
    [read_csv] delivers a table: a range index and one column per label. *)
Definition from_records (rows : list (list float64)) (labels : list string)
  : DataFrame :=
  {| index := seq 0 (List.length rows);
     columns := map (fun jl => (snd jl, map (fun row => nth (fst jl) row NaN) rows))
                    (combine (seq 0 (List.length labels)) labels) |}.

(** What every frame built by [read_csv] and by the operations above
    satisfies: distinct row labels, distinct column labels, columns as long
    as the index. *)
Definition well_formed (df : DataFrame) : Prop :=
  NoDup (index df) /\
  NoDup (column_labels df) /\
  Forall (fun c => List.length (snd c) = nrows df) (columns df).

End Pandas.
Export Pandas.

(** * numpy: the legacy [RandomState] generator

    [np.random.RandomState] is the Mersenne Twister MT19937.  Words are
    32-bit unsigned integers, held in [Z] and masked where the C code
    relies on the width. *)

Module Numpy.

Definition uint32 (z : Z) : Z := Z.land z 0xffffffff%Z.

Definition RK_STATE_LEN : nat := 624.

Record mt19937_state : Type := mkState {
  key : list Z;
  pos : nat
}.

(** The loop of [mt19937_seed]: [n] keys from index [i] on. *)
Fixpoint seed_keys (n : nat) (i : Z) (seed : Z) : list Z :=
  match n with
  | O => []
  | S n' =>
      seed :: seed_keys n' (i + 1)%Z
                (uint32 (1812433253 * Z.lxor seed (Z.shiftr seed 30) + i + 1)%Z)
  end.

Definition mt19937_seed (seed : Z) : mt19937_state :=
  {| key := seed_keys RK_STATE_LEN 0%Z (uint32 seed); pos := RK_STATE_LEN |}.

(** [RandomState(seed)] with an integer seed. *)
Definition RandomState (seed : Z) : result mt19937_state :=
  if ((0 <=? seed) && (seed <=? 0xffffffff))%Z
  then Ok (mt19937_seed seed)
  else Raise (ValueError "Seed must be between 0 and 2**32 - 1").

Fixpoint set_nth {A : Type} (n : nat) (x : A) (l : list A) : list A :=
  match l, n with
  | [], _ => []
  | _ :: t, O => x :: t
  | h :: t, S n' => h :: set_nth n' x t
  end.

(** One step of the in-place regeneration of the key array in
    [mt19937_gen]; the three stretches of its loop differ in the indices
    only, which are taken modulo the length here. *)
Definition twist_at (mt : list Z) (k : nat) : list Z :=
  let y := Z.lor (Z.land (nth k mt 0%Z) 0x80000000%Z)
                 (Z.land (nth ((k + 1) mod RK_STATE_LEN) mt 0%Z) 0x7fffffff%Z) in
  set_nth k
    (Z.lxor (Z.lxor (nth ((k + 397) mod RK_STATE_LEN) mt 0%Z) (Z.shiftr y 1))
            (if Z.odd y then 0x9908b0df%Z else 0%Z))
    mt.

Definition mt19937_gen (mt : list Z) : list Z :=
  fold_left twist_at (seq 0 RK_STATE_LEN) mt.

Definition temper (y : Z) : Z :=
  let y := Z.lxor y (Z.shiftr y 11) in
  let y := Z.lxor y (Z.land (Z.shiftl y 7) 0x9d2c5680%Z) in
  let y := Z.lxor y (Z.land (Z.shiftl y 15) 0xefc60000%Z) in
  Z.lxor y (Z.shiftr y 18).

(** [mt19937_next]: the next 32-bit word. *)
Definition mt19937_next (state : mt19937_state) : Z * mt19937_state :=
  let state :=
    if RK_STATE_LEN <=? pos state
    then {| key := mt19937_gen (key state); pos := 0 |}
    else state in
  (temper (nth (pos state) (key state) 0%Z),
   {| key := key state; pos := S (pos state) |}).

(** The smallest bit mask that covers [max]. *)
Definition interval_mask (max : Z) : Z :=
  let mask := max in
  let mask := Z.lor mask (Z.shiftr mask 1) in
  let mask := Z.lor mask (Z.shiftr mask 2) in
  let mask := Z.lor mask (Z.shiftr mask 4) in
  let mask := Z.lor mask (Z.shiftr mask 8) in
  let mask := Z.lor mask (Z.shiftr mask 16) in
  Z.lor mask (Z.shiftr mask 32).

(** [mt19937_next64]: two words, the first one in the high half. *)
Definition mt19937_next64 (state : mt19937_state) : Z * mt19937_state :=
  let (high, state) := mt19937_next state in
  let (low, state) := mt19937_next state in
  (Z.lor (Z.shiftl high 32) low, state).

(** The rejection loop [while ((value = next(state) & mask) > max);].  The
    source loops until a draw is accepted; the model gives up after [fuel]
    draws. *)
Fixpoint draw_until (next : mt19937_state -> Z * mt19937_state) (fuel : nat)
    (mask max : Z) (state : mt19937_state) : option (Z * mt19937_state) :=
  match fuel with
  | O => None
  | S fuel' =>
      let (word, state') := next state in
      let value := Z.land word mask in
      if (value <=? max)%Z then Some (value, state')
      else draw_until next fuel' mask max state'
  end.

Definition max_draws : nat := 4096.

(** [random_interval]: a draw from [0 .. max], made of 32-bit words when
    [max] fits in 32 bits and of 64-bit words otherwise. *)
Definition random_interval (state : mt19937_state) (max : nat)
  : option (nat * mt19937_state) :=
  match max with
  | O => Some (0, state)
  | _ =>
      let next :=
        if (Z.of_nat max <=? 0xffffffff)%Z then mt19937_next else mt19937_next64 in
      match draw_until next max_draws (interval_mask (Z.of_nat max)) (Z.of_nat max) state with
      | Some (value, state') => Some (Z.to_nat value, state')
      | None => None
      end
  end.

Definition swap (i j : nat) (x : list nat) : list nat :=
  set_nth i (nth j x 0) (set_nth j (nth i x 0) x).

(** [_shuffle_raw]: [for i in reversed(range(1, n))], swapping [x[i]] with
    [x[j]] for a draw [j] from [0 .. i].  The argument counts down from
    [n - 1]. *)
Fixpoint _shuffle_raw (i : nat) (state : mt19937_state) (x : list nat)
  : option (list nat * mt19937_state) :=
  match i with
  | O => Some (x, state)
  | S i' =>
      match random_interval state i with
      | Some (j, state') => _shuffle_raw i' state' (swap i j x)
      | None => None
      end
  end.

(** [RandomState.permutation(n)]: [np.arange(n)], shuffled. *)
Definition permutation (state : mt19937_state) (n : nat)
  : option (list nat * mt19937_state) :=
  _shuffle_raw (n - 1) state (seq 0 n).

End Numpy.
Export Numpy.

(** * scikit-learn: [train_test_split] *)

Module Sklearn.

(** [check_random_state]: [None] is the process-wide generator of
    [np.random], an integer seeds a generator of its own. *)
Definition check_random_state (seed : option Z) (global : mt19937_state)
  : result mt19937_state :=
  match seed with
  | None => Ok global
  | Some s => RandomState s
  end.

(** [_validate_shuffle_split] for a float [test_size] and [train_size=None]:
    the pair [(n_train, n_test)]. *)
Definition _validate_shuffle_split (n_samples : nat) (test_size : Q)
  : result (nat * nat) :=
  if Qle_bool test_size 0 || Qle_bool 1 test_size
  then Raise (ValueError "test_size should be in the (0, 1) range")
  else
    let n_test := Z.to_nat (Qceiling (test_size * inject_Z (Z.of_nat n_samples))) in
    let n_train := n_samples - n_test in
    if n_train =? 0
    then Raise (ValueError "the resulting train set will be empty")
    else Ok (n_train, n_test).

(** [ShuffleSplit._iter_indices], first split: the test positions are the
    head of the permutation, the train positions follow. *)
Definition _iter_indices (n_samples n_train n_test : nat) (rng : mt19937_state)
  : result (list nat * list nat * mt19937_state) :=
  match permutation rng n_samples with
  | Some (perm, rng') =>
      Ok (firstn n_train (skipn n_test perm), firstn n_test perm, rng')
  | None => OutOfFuel
  end.

Definition splitting : Type := DataFrame * DataFrame * Series * Series.

(** [train_test_split(X, y, test_size=..., random_state=...)], returning
    [(X_train, X_test, y_train, y_test)] and the state in which the call
    leaves the process-wide generator. *)
Definition train_test_split (X : DataFrame) (y : Series) (test_size : Q)
    (random_state : option Z) (global : mt19937_state)
  : result splitting * mt19937_state :=
  let outcome :=
    if negb (List.length y =? nrows X)
    then Raise (ValueError "inconsistent numbers of samples")
    else
      do sizes <- _validate_shuffle_split (nrows X) test_size;
      do rng <- check_random_state random_state global;
      do split <- _iter_indices (nrows X) (fst sizes) (snd sizes) rng;
      let '(train, test, rng') := split in
      Ok (iloc X train, iloc X test, take NaN train y, take NaN test y, rng') in
  match outcome with
  | Ok (X_train, X_test, y_train, y_test, rng') =>
      (Ok (X_train, X_test, y_train, y_test),
       match random_state with None => rng' | Some _ => global end)
  | Raise e => (Raise e, global)
  | OutOfFuel => (OutOfFuel, global)
  end.

End Sklearn.
Export Sklearn.

(** * The notebook *)

Module Notebook.

Definition uptake_vol : string := "uptake_vol [g H2/L]".
Definition pore_volume : string := "pore_volume [cm³/g]".

Definition column_names : list string := [
  "asa_grav [m²/g]"; "asa_vol [m²/cm³]"; "av_vf"; "pore_volume [cm³/g]";
  "density [g/cm³]"; "nexc [wt. %]"; "uptake_grav [wt. %]"; "uptake_vol [g H2/L]";
  "lcd [Å]"; "pld [Å]"; "LFPD [Å]"; "cell_length_a"; "cell_length_b"; "cell_length_c";
  "cell_angle_alpha"; "cell_angle_beta"; "cell_angle_gamma"; "cell_volume [Å³]"; "Target"
]%string.

Definition half : float64 := Finite (1 # 2).
Definition one : float64 := Finite 1.
Definition two : float64 := Finite 2.

(** The right-hand side of the first assignment of cell 2:
    [0.5 * u + 0.5 * (1 / p)]. *)
Definition target_expr (u p : Series) : Series :=
  add_series (scalar_mul half u) (scalar_mul half (scalar_div one p)).

(** Cell 2, after [read_csv]:
    [data['Target'] = 0.5 * data[uptake_vol] + 0.5 * (1 / data[pore_volume])]
    and then [data['Target'] *= 2]. *)
Definition load_and_prepare_data (data : DataFrame) : result DataFrame :=
  do u <- getitem data uptake_vol;
  do p <- getitem data pore_volume;
  let data := setitem data "Target" (target_expr u p) in
  do t <- getitem data "Target";
  Ok (setitem data "Target" (mul_scalar t two)).

(** The right-hand side of the assignment in the loop of cell 3:
    [(s - s.min()) / (s.max() - s.min())]. *)
Definition min_max (s : Series) : Series :=
  div_scalar (sub_scalar s (series_min s)) (fsub (series_max s) (series_min s)).

(** The body of the loop of cell 3. *)
Definition normalize_column (svm_data : DataFrame) (column : string)
  : result DataFrame :=
  if negb (String.eqb column "Target")
  then do s <- getitem svm_data column;
       Ok (setitem svm_data column (min_max s))
  else Ok svm_data.

Fixpoint normalize_features (columns : list string) (svm_data : DataFrame)
  : result DataFrame :=
  match columns with
  | [] => Ok svm_data
  | column :: rest =>
      do svm_data <- normalize_column svm_data column;
      normalize_features rest svm_data
  end.

(** Cell 3: [svm_data = data[column_names]], then the loop over
    [column_names]. *)
Definition feature_engineering (data : DataFrame) : result DataFrame :=
  do svm_data <- getitem_list data column_names;
  normalize_features column_names svm_data.

Definition features : list string :=
  filter (fun col => negb (String.eqb col "Target")) column_names.

(** Cell 4: [svm_data.dropna()], [X = svm_data[features]],
    [y = svm_data['Target']]. *)
Definition prepare_features_and_target (svm_data : DataFrame)
  : result (DataFrame * Series) :=
  let svm_data := dropna svm_data in
  do X <- getitem_list svm_data features;
  do y <- getitem svm_data "Target";
  Ok (X, y).

(** Cells 2 to 4: the matrix and the vector handed to the split and the fit. *)
Definition fit_matrix (data : DataFrame) : result (DataFrame * Series) :=
  do data <- load_and_prepare_data data;
  do svm_data <- feature_engineering data;
  prepare_features_and_target svm_data.

Definition test_size : Q := 1 # 5.
Definition random_state : Z := 42.

(** Cells 2 to 5 on the frame read from the CSV file. *)
Definition notebook (data : DataFrame) (global : mt19937_state)
  : result splitting * mt19937_state :=
  match fit_matrix data with
  | Ok (X, y) => train_test_split X y test_size (Some random_state) global
  | Raise e => (Raise e, global)
  | OutOfFuel => (OutOfFuel, global)
  end.

End Notebook.
Export Notebook.

(** * The formulas of the specification *)

Module Spec.

(** Section 4.1: [Target = 2 * (0.5*uptake_vol + 0.5*(1/pore_volume))]. *)
Definition target (uptake_vol pore_volume : Q) : Q :=
  (2 * ((1 # 2) * uptake_vol + (1 # 2) * (1 / pore_volume)))%Q.

(** Section 4.2: [(v - min) / (max - min)]. *)
Definition rescale (v min max : Q) : Q := ((v - min) / (max - min))%Q.

End Spec.

(** * Sample tables *)

Module Samples.

Definition num (n : nat) : float64 := Finite (inject_Z (Z.of_nat n)).

(** A synthetic record: row [i] holds [(i + 1) * (j + 1)] in the feature
    column of position [j], so no two rows agree in any column. *)
Definition mof_row (i : nat) : list float64 :=
  map (fun j => num ((i + 1) * (j + 1))) (seq 0 18).

Definition mof_rows (n : nat) : list (list float64) := map mof_row (seq 0 n).

(** Positions of three columns in [features]. *)
Definition col_pore_volume : nat := 3.
Definition col_cell_angle_alpha : nat := 14.

Definition set_cell (i j : nat) (v : float64) (rows : list (list float64))
  : list (list float64) :=
  set_nth i (set_nth j v (nth i rows [])) rows.

(** Ten complete records. *)
Definition ten_records : DataFrame := from_records (mof_rows 10) features.

(** Five records; the pore volume of the third one is missing. *)
Definition five_records : DataFrame :=
  from_records (set_cell 2 col_pore_volume NaN (mof_rows 5)) features.

(** Three records; the pore volume of the second one is zero. *)
Definition zero_pore_records : DataFrame :=
  from_records (set_cell 1 col_pore_volume (num 0) (mof_rows 3)) features.

(** Three records of a cell whose angle alpha is 90 degrees throughout. *)
Definition right_angle_records : DataFrame :=
  from_records
    (set_cell 0 col_cell_angle_alpha (num 90)
       (set_cell 1 col_cell_angle_alpha (num 90)
          (set_cell 2 col_cell_angle_alpha (num 90) (mof_rows 3))))
    features.


(** The frame a table is in after cell 2 (the table itself when cell 2
    raises). *)
Definition with_target (data : DataFrame) : DataFrame :=
  match load_and_prepare_data data with
  | Ok data' => data'
  | _ => data
  end.

(** The frame after cells 2 and 3. *)
Definition normalized (data : DataFrame) : DataFrame :=
  match feature_engineering (with_target data) with
  | Ok svm_data => svm_data
  | _ => data
  end.

(** The matrix and the vector a table reaches the split with. *)
Definition fit_X (data : DataFrame) : DataFrame :=
  match fit_matrix data with
  | Ok (X, _) => X
  | _ => data
  end.

Definition fit_y (data : DataFrame) : Series :=
  match fit_matrix data with
  | Ok (_, y) => y
  | _ => []
  end.

(** Two states of the process-wide generator. *)
Definition some_global : mt19937_state := mt19937_seed 0.
Definition other_global : mt19937_state := mt19937_seed 1.

End Samples.
Export Samples.

(** * scikit-learn: the linear model and the error metric

    Cell 6 fits [LinearRegression] on the training part, predicts the
    evaluation part and reports [mean_squared_error].  The least-squares
    solver behind [fit] is a numerical routine outside the notebook; it is a
    parameter here, a function that returns coefficients for every input.
    The input validation around it, the prediction and the metric are
    embedded.  The texts of the messages differ between versions of the
    library and are shortened; what is used of an exception below is its
    class. *)

Module LinearModel.

Definition isfinite (x : float64) : bool :=
  match x with Finite _ => true | _ => false end.

(** What the solver returns: the coefficients and the intercept. *)
Definition solver : Type :=
  list (list float64) -> list float64 -> list float64 * float64.

Record LinearRegression : Type := mkModel {
  coef_ : list float64;
  intercept_ : float64
}.

(** [X.to_numpy()]: the rows of the frame. *)
Definition to_numpy (X : DataFrame) : list (list float64) :=
  map (fun i => map (fun c => nth i (snd c) NaN) (columns X)) (seq 0 (nrows X)).

(** [check_array] on a feature matrix: finite values only, at least one
    sample, at least one feature. *)
Definition check_matrix (X : DataFrame) : result unit :=
  if negb (forallb (fun c => forallb isfinite (snd c)) (columns X))
  then Raise (ValueError "Input X contains NaN or infinity")
  else if nrows X =? 0
  then Raise (ValueError "Found array with 0 sample(s)")
  else if List.length (columns X) =? 0
  then Raise (ValueError "Found array with 0 feature(s)")
  else Ok tt.

(** [check_array] on a vector of targets. *)
Definition check_vector (y : list float64) : result unit :=
  if negb (forallb isfinite y)
  then Raise (ValueError "Input contains NaN or infinity")
  else if List.length y =? 0
  then Raise (ValueError "Found array with 0 sample(s)")
  else Ok tt.

Definition check_consistent_length (n m : nat) : result unit :=
  if n =? m then Ok tt
  else Raise (ValueError "inconsistent numbers of samples").

(** [LinearRegression().fit(X, y)]: the inputs are validated, then solved. *)
Definition fit (lstsq : solver) (X : DataFrame) (y : list float64)
  : result LinearRegression :=
  do _ <- check_matrix X;
  do _ <- check_vector y;
  do _ <- check_consistent_length (nrows X) (List.length y);
  Ok {| coef_ := fst (lstsq (to_numpy X) y);
        intercept_ := snd (lstsq (to_numpy X) y) |}.

Definition fsum (l : list float64) : float64 := fold_left fadd l (Finite 0).

Definition dot (row coef : list float64) : float64 :=
  fsum (map (fun p => fmul (fst p) (snd p)) (combine row coef)).

(** [model.predict(X)]: [X @ coef_ + intercept_]. *)
Definition predict (model : LinearRegression) (X : DataFrame)
  : result (list float64) :=
  do _ <- check_matrix X;
  if negb (List.length (columns X) =? List.length (coef_ model))
  then Raise (ValueError "X has a different number of features")
  else Ok (map (fun row => fadd (dot row (coef_ model)) (intercept_ model))
             (to_numpy X)).

(** [mean_squared_error(y_true, y_pred)]: the average of the squared
    differences. *)
Definition mean_squared_error (y_true y_pred : list float64) : result float64 :=
  do _ <- check_consistent_length (List.length y_true) (List.length y_pred);
  do _ <- check_vector y_true;
  do _ <- check_vector y_pred;
  Ok (fdiv (fsum (map (fun p => fmul (fsub (fst p) (snd p)) (fsub (fst p) (snd p)))
                   (combine y_true y_pred)))
        (Finite (inject_Z (Z.of_nat (List.length y_true))))).

End LinearModel.
Export LinearModel.

(** * The notebook, cell 6 *)

Module Report.

(** Cell 6 on the four parts of the split: the reported error. *)
Definition linear_regression_model (lstsq : solver) (parts : splitting)
  : result float64 :=
  let '(X_train, X_test, y_train, y_test) := parts in
  do model <- fit lstsq X_train y_train;
  do y_pred <- predict model X_test;
  mean_squared_error y_test y_pred.

(** Cells 2 to 6. *)
Definition notebook_mse (lstsq : solver) (data : DataFrame) (global : mt19937_state)
  : result float64 :=
  do parts <- fst (notebook data global);
  linear_regression_model lstsq parts.

(** A stand-in for the solver on sample tables: no slope, the first target
    as intercept. *)
Definition flat_solver : solver :=
  fun X y => (map (fun _ => Finite 0) (hd [] X), hd (Finite 0) y).

End Report.
Export Report.

(** * Records *)

Module Records.

(** The record at position [i] of a dataset split into a frame and a vector
    of targets: its label, its feature values, its target. *)
Definition row_of (X : DataFrame) (y : Series) (i : nat)
  : option (nat * list float64 * float64) :=
  match nth_error (index X) i, nth_error y i with
  | Some r, Some t => Some (r, map (fun c => nth i (snd c) NaN) (columns X), t)
  | _, _ => None
  end.

End Records.
Export Records.

(** * Arithmetic and order of float64 values *)

(** Distinctness of the entries of a list given in full. *)
Ltac distinct_entries :=
  repeat (constructor; [simpl; intuition discriminate|]); constructor.

#[local] Arguments Qred : simpl never.
#[local] Arguments Qplus : simpl never.
#[local] Arguments Qminus : simpl never.
#[local] Arguments Qmult : simpl never.
#[local] Arguments Qdiv : simpl never.
#[local] Arguments Qinv : simpl never.
#[local] Arguments Qopp : simpl never.

Lemma Qltb_true (a b : Q) : Qltb a b = true <-> (a < b)%Q.
Proof.
  unfold Qltb. rewrite Qlt_alt.
  destruct (a ?= b)%Q; split; intro H; congruence.
Qed.

Lemma Qltb_false (a b : Q) : Qltb a b = false <-> (b <= a)%Q.
Proof.
  split; intro H.
  - apply Qnot_lt_le. intro L. apply Qltb_true in L. congruence.
  - destruct (Qltb a b) eqn:E; [|reflexivity].
    apply Qltb_true in E. exfalso. apply (Qlt_not_le _ _ E H).
Qed.

Lemma Qis_zero_spec (q : Q) : Qis_zero q = true <-> (q == 0)%Q.
Proof.
  unfold Qis_zero, Qeq. simpl. rewrite Z.eqb_eq. lia.
Qed.

Lemma Qis_zero_false (q : Q) : Qis_zero q = false <-> ~ (q == 0)%Q.
Proof.
  rewrite <- Qis_zero_spec. destruct (Qis_zero q); split; congruence.
Qed.

Lemma Qis_zero_Qred (q : Q) : Qis_zero (Qred q) = Qis_zero q.
Proof.
  destruct (Qis_zero q) eqn:E.
  - apply Qis_zero_spec. rewrite Qred_correct. now apply Qis_zero_spec.
  - apply Qis_zero_false. rewrite Qred_correct. now apply Qis_zero_false.
Qed.

Lemma Qis_neg_spec (q : Q) : Qis_neg q = true <-> (q < 0)%Q.
Proof.
  unfold Qis_neg, Qlt. simpl. rewrite Z.ltb_lt. lia.
Qed.

Lemma Finite_Qred_eq (a b : Q) : (a == b)%Q -> Finite (Qred a) = Finite (Qred b).
Proof. intro H. f_equal. now apply Qred_complete. Qed.

Lemma fmul_comm (x y : float64) : fmul x y = fmul y x.
Proof.
  destruct x as [a|s|], y as [b|t|]; simpl; try reflexivity.
  - apply Finite_Qred_eq. ring.
  - now rewrite xorb_comm.
Qed.

Lemma fadd_comm (x y : float64) : fadd x y = fadd y x.
Proof.
  destruct x as [a|s|], y as [b|t|]; simpl; try reflexivity.
  - apply Finite_Qred_eq. ring.
  - destruct s, t; reflexivity.
Qed.

(** NaN is absorbing for the four operations. *)
Lemma fadd_nan_l y : fadd NaN y = NaN.
Proof. reflexivity. Qed.
Lemma fadd_nan_r x : fadd x NaN = NaN.
Proof. now destruct x. Qed.
Lemma fsub_nan_l y : fsub NaN y = NaN.
Proof. reflexivity. Qed.
Lemma fsub_nan_r x : fsub x NaN = NaN.
Proof. now destruct x. Qed.
Lemma fmul_nan_l y : fmul NaN y = NaN.
Proof. reflexivity. Qed.
Lemma fmul_nan_r x : fmul x NaN = NaN.
Proof. now destruct x. Qed.
Lemma fdiv_nan_l y : fdiv NaN y = NaN.
Proof. reflexivity. Qed.
Lemma fdiv_nan_r x : fdiv x NaN = NaN.
Proof. now destruct x. Qed.

Lemma notna_true (x : float64) : notna x = true <-> x <> NaN.
Proof. unfold notna; destruct x; simpl; split; intro H; try congruence; easy. Qed.

Lemma notna_false (x : float64) : notna x = false <-> x = NaN.
Proof. unfold notna; destruct x; simpl; split; intro H; try congruence; easy. Qed.

(** [fltb] is a strict total order on the values other than NaN; the three
    facts below are what the reductions [min] and [max] need. *)
Lemma fltb_irrefl (x : float64) : fltb x x = false.
Proof.
  destruct x as [a|s|]; simpl; try reflexivity.
  - apply Qltb_false. apply Qle_refl.
  - now destruct s.
Qed.

Lemma fltb_asym (x y : float64) : fltb x y = true -> fltb y x = false.
Proof.
  destruct x as [a|s|], y as [b|t|]; simpl; try congruence.
  - rewrite Qltb_true, Qltb_false. apply Qlt_le_weak.
  - now destruct t.
  - now destruct s.
  - now destruct s, t.
Qed.

Lemma fltb_ge_trans (x y z : float64) :
  notna y = true -> fltb y x = false -> fltb z y = false -> fltb z x = false.
Proof.
  unfold notna.
  destruct x as [a|s|], y as [b|t|], z as [c|u|]; simpl; try congruence;
    try (rewrite !Qltb_false; intros _ H1 H2; eapply Qle_trans; eassumption);
    repeat match goal with s : bool |- _ => destruct s end;
    simpl; intros; congruence.
Qed.

(** * [Series.min] and [Series.max] *)

Lemma fmin_cases (x y : float64) :
  (x = NaN /\ fmin x y = y) \/
  (x <> NaN /\ y = NaN /\ fmin x y = x) \/
  (x <> NaN /\ y <> NaN /\ fltb y x = true /\ fmin x y = y) \/
  (x <> NaN /\ y <> NaN /\ fltb y x = false /\ fmin x y = x).
Proof.
  destruct x as [a|s|], y as [b|t|]; simpl; auto;
    match goal with
    | |- context [if ?c then _ else _] =>
        destruct c eqn:E; [right; right; left | right; right; right]
    | _ => right; left
    end; repeat split; congruence.
Qed.

Lemma fmax_cases (x y : float64) :
  (x = NaN /\ fmax x y = y) \/
  (x <> NaN /\ y = NaN /\ fmax x y = x) \/
  (x <> NaN /\ y <> NaN /\ fltb x y = true /\ fmax x y = y) \/
  (x <> NaN /\ y <> NaN /\ fltb x y = false /\ fmax x y = x).
Proof.
  destruct x as [a|s|], y as [b|t|]; simpl; auto;
    match goal with
    | |- context [if ?c then _ else _] =>
        destruct c eqn:E; [right; right; left | right; right; right]
    | _ => right; left
    end; repeat split; congruence.
Qed.

Lemma series_min_cons (a : float64) (s : Series) :
  series_min (a :: s) = fmin a (series_min s).
Proof. reflexivity. Qed.

Lemma series_max_cons (a : float64) (s : Series) :
  series_max (a :: s) = fmax a (series_max s).
Proof. reflexivity. Qed.

(** A column with a value that is not missing has a minimum that is not
    missing either. *)
Lemma series_min_notna (s : Series) (x : float64) :
  In x s -> x <> NaN -> series_min s <> NaN.
Proof.
  induction s as [|a s IH]; intros Hin Hx; [easy|].
  rewrite series_min_cons.
  destruct (fmin_cases a (series_min s)) as [[Ha E]|[[Ha [Hr E]]|[[Ha [Hr [_ E]]]|[Ha [Hr [_ E]]]]]];
    rewrite E; try assumption.
  destruct Hin as [->|Hin]; [congruence | now apply IH].
Qed.

Lemma series_max_notna (s : Series) (x : float64) :
  In x s -> x <> NaN -> series_max s <> NaN.
Proof.
  induction s as [|a s IH]; intros Hin Hx; [easy|].
  rewrite series_max_cons.
  destruct (fmax_cases a (series_max s)) as [[Ha E]|[[Ha [Hr E]]|[[Ha [Hr [_ E]]]|[Ha [Hr [_ E]]]]]];
    rewrite E; try assumption.
  destruct Hin as [->|Hin]; [congruence | now apply IH].
Qed.

(** The minimum is one of the values. *)
Lemma series_min_In (s : Series) : series_min s <> NaN -> In (series_min s) s.
Proof.
  induction s as [|a s IH]; [easy|].
  rewrite series_min_cons.
  destruct (fmin_cases a (series_min s)) as [[Ha E]|[[Ha [Hr E]]|[[Ha [Hr [_ E]]]|[Ha [Hr [_ E]]]]]];
    rewrite E; intro H; simpl; auto.
Qed.

Lemma series_max_In (s : Series) : series_max s <> NaN -> In (series_max s) s.
Proof.
  induction s as [|a s IH]; [easy|].
  rewrite series_max_cons.
  destruct (fmax_cases a (series_max s)) as [[Ha E]|[[Ha [Hr E]]|[[Ha [Hr [_ E]]]|[Ha [Hr [_ E]]]]]];
    rewrite E; intro H; simpl; auto.
Qed.

(** No value of the column lies below the minimum. *)
Lemma series_min_le (s : Series) (x : float64) :
  In x s -> x <> NaN -> fltb x (series_min s) = false.
Proof.
  induction s as [|a s IH]; intros Hin Hx; [easy|].
  rewrite series_min_cons.
  destruct (fmin_cases a (series_min s)) as [[Ha E]|[[Ha [Hr E]]|[[Ha [Hr [L E]]]|[Ha [Hr [L E]]]]]];
    rewrite E; destruct Hin as [->|Hin].
  - congruence.
  - now apply IH.
  - apply fltb_irrefl.
  - exfalso. apply (series_min_notna s x); assumption.
  - now apply fltb_asym.
  - now apply IH.
  - apply fltb_irrefl.
  - apply (fltb_ge_trans a (series_min s) x); auto.
    now apply notna_true.
Qed.

(** No value of the column lies above the maximum. *)
Lemma series_max_ge (s : Series) (x : float64) :
  In x s -> x <> NaN -> fltb (series_max s) x = false.
Proof.
  induction s as [|a s IH]; intros Hin Hx; [easy|].
  rewrite series_max_cons.
  destruct (fmax_cases a (series_max s)) as [[Ha E]|[[Ha [Hr E]]|[[Ha [Hr [L E]]]|[Ha [Hr [L E]]]]]];
    rewrite E; destruct Hin as [->|Hin].
  - congruence.
  - now apply IH.
  - apply fltb_irrefl.
  - exfalso. apply (series_max_notna s x); assumption.
  - now apply fltb_asym.
  - now apply IH.
  - apply fltb_irrefl.
  - apply (fltb_ge_trans x (series_max s) a); auto.
    now apply notna_true.
Qed.

(** * The rescaling [(v - min) / (max - min)] *)



(** * Columns of a frame *)

Lemma lookup_assign_eq (key : string) (s : Series) cols :
  lookup key (assign key s cols) = Some s.
Proof.
  induction cols as [|[k c] rest IH]; simpl.
  - now rewrite String.eqb_refl.
  - destruct (String.eqb k key) eqn:E; simpl; rewrite E; auto.
Qed.

Lemma lookup_assign_neq (key k : string) (s : Series) cols :
  k <> key -> lookup k (assign key s cols) = lookup k cols.
Proof.
  intro N. induction cols as [|[k0 c] rest IH]; simpl.
  - apply String.eqb_neq in N. rewrite String.eqb_sym. now rewrite N.
  - destruct (String.eqb k0 key) eqn:E; simpl.
    + apply String.eqb_eq in E. subst k0.
      assert (String.eqb key k = false) as ->; [|reflexivity].
      apply String.eqb_neq. congruence.
    + now rewrite IH.
Qed.

Lemma assign_labels (key : string) (s : Series) cols :
  lookup key cols <> None -> map fst (assign key s cols) = map fst cols.
Proof.
  induction cols as [|[k c] rest IH]; simpl; [congruence|].
  destruct (String.eqb k key) eqn:E; simpl; intro H; [reflexivity|].
  f_equal. now apply IH.
Qed.

Lemma lookup_In_labels (key : string) cols :
  lookup key cols <> None <-> In key (map fst cols).
Proof.
  induction cols as [|[k c] rest IH]; simpl; [split; [congruence | easy]|].
  destruct (String.eqb k key) eqn:E.
  - apply String.eqb_eq in E. split; [auto | congruence].
  - apply String.eqb_neq in E. rewrite IH. split; [auto | intros [H|H]; congruence].
Qed.

Lemma lookup_map_snd (f : Series -> Series) (key : string) cols :
  lookup key (map (fun c => (fst c, f (snd c))) cols) = option_map f (lookup key cols).
Proof.
  induction cols as [|[k c] rest IH]; simpl; [reflexivity|].
  destruct (String.eqb k key); simpl; auto.
Qed.

Lemma getitem_Ok (df : DataFrame) (key : string) (s : Series) :
  getitem df key = Ok s <-> lookup key (columns df) = Some s.
Proof.
  unfold getitem. destruct (lookup key (columns df)); split; congruence.
Qed.

Lemma getitem_setitem_eq (df : DataFrame) (key : string) (s : Series) :
  getitem (setitem df key s) key = Ok s.
Proof. apply getitem_Ok. apply lookup_assign_eq. Qed.

Lemma getitem_setitem_neq (df : DataFrame) (key k : string) (s : Series) :
  k <> key -> getitem (setitem df key s) k = getitem df k.
Proof.
  intro N. unfold getitem, setitem. simpl. now rewrite lookup_assign_neq.
Qed.

(** [df[keys]] succeeds exactly when every label is a column of the frame,
    and the new frame holds the columns of the old one under these labels. *)
Lemma getitem_columns_Ok (df : DataFrame) (keys : list string) cols :
  getitem_columns df keys = Ok cols ->
  map fst cols = keys /\
  (forall k, In k keys -> lookup k cols = lookup k (columns df) /\
                          lookup k (columns df) <> None) /\
  (forall k, ~ In k keys -> lookup k cols = None).
Proof.
  revert cols. induction keys as [|k0 rest IH]; simpl; intros cols H.
  - inversion H. subst. repeat split; try easy.
  - unfold getitem in H.
    destruct (lookup k0 (columns df)) as [s|] eqn:E; simpl in H; [|congruence].
    destruct (getitem_columns df rest) as [cols'| |]; simpl in H; try congruence.
    inversion H; subst cols; clear H.
    destruct (IH cols' eq_refl) as (L & I & O).
    simpl. split; [now f_equal|]. split.
    + intros k Hk. destruct (String.eqb k0 k) eqn:Ek.
      * apply String.eqb_eq in Ek. subst k. rewrite E. split; congruence.
      * apply String.eqb_neq in Ek. destruct Hk as [Hk|Hk]; [congruence|].
        now apply I.
    + intros k Hk. destruct (String.eqb k0 k) eqn:Ek.
      * apply String.eqb_eq in Ek. exfalso. apply Hk. now left.
      * apply O. intro. apply Hk. now right.
Qed.

Lemma getitem_columns_total (df : DataFrame) (keys : list string) :
  (forall k, In k keys -> lookup k (columns df) <> None) ->
  exists cols, getitem_columns df keys = Ok cols.
Proof.
  induction keys as [|k0 rest IH]; simpl; intro H; [now eexists|].
  unfold getitem.
  destruct (lookup k0 (columns df)) as [s|] eqn:E; [|exfalso; now apply (H k0); auto].
  destruct IH as [cols ->]; [intros; apply H; auto|].
  simpl. now eexists.
Qed.

(** * Rows kept by a mask *)

Lemma select_nil {A : Type} (mask : list bool) : @select A mask [] = [].
Proof. now destruct mask as [|[|] m]. Qed.

Lemma select_In {A : Type} (f : nat -> bool) (l : list A) (v : A) :
  forall a n, In v (select (map f (seq a n)) l) ->
  exists i, i < n /\ nth_error l i = Some v /\ f (a + i) = true.
Proof.
  induction l as [|x t IH]; intros a n H.
  - now rewrite select_nil in H.
  - destruct n as [|n]; [easy|]. simpl in H.
    destruct (f a) eqn:E.
    + destruct H as [->|H].
      * exists 0. rewrite Nat.add_0_r. repeat split; auto. lia.
      * destruct (IH _ _ H) as (i & Hi & Hn & Hf).
        exists (S i). repeat split; auto; [lia|].
        now replace (a + S i) with (S a + i) by lia.
    + destruct (IH _ _ H) as (i & Hi & Hn & Hf).
      exists (S i). repeat split; auto; [lia|].
      now replace (a + S i) with (S a + i) by lia.
Qed.

Lemma In_select {A : Type} (f : nat -> bool) (l : list A) (v : A) :
  forall a n i, i < n -> nth_error l i = Some v -> f (a + i) = true ->
  In v (select (map f (seq a n)) l).
Proof.
  induction l as [|x t IH]; intros a n i Hi Hn Hf.
  - now destruct i.
  - destruct n as [|n]; [lia|]. simpl.
    destruct i as [|i].
    + rewrite Nat.add_0_r in Hf. rewrite Hf. left. simpl in Hn. congruence.
    + simpl in Hn.
      assert (In v (select (map f (seq (S a) n)) t)) as HI.
      { apply (IH (S a) n i); auto; [lia|].
        now replace (S a + i) with (a + S i) by lia. }
      destruct (f a); simpl; auto.
Qed.

Lemma select_length {A : Type} (mask : list bool) (l : list A) :
  List.length mask = List.length l ->
  List.length (select mask l) = List.length (filter (fun b => b) mask).
Proof.
  revert l. induction mask as [|b m IH]; intros [|x t] H; simpl in *; try easy.
  destruct b; simpl; [f_equal|]; apply IH; lia.
Qed.

(** [dropna] acts on every column through the one mask. *)
Lemma lookup_dropna (df : DataFrame) (key : string) :
  lookup key (columns (dropna df)) =
  option_map (select (notna_mask df)) (lookup key (columns df)).
Proof. unfold dropna. simpl. apply lookup_map_snd. Qed.

Lemma lookup_In (key : string) (s : Series) cols :
  lookup key cols = Some s -> In (key, s) cols.
Proof.
  induction cols as [|[k c] rest IH]; simpl; [congruence|].
  destruct (String.eqb k key) eqn:E.
  - apply String.eqb_eq in E. intro H. left. congruence.
  - auto.
Qed.


(** * Cell 2: the target column *)

Lemma nth_error_combine {A B : Type} (a : list A) (b : list B) (i : nat) (x : A) (y : B) :
  nth_error a i = Some x -> nth_error b i = Some y ->
  nth_error (combine a b) i = Some (x, y).
Proof.
  revert b i. induction a as [|h t IH]; intros [|h' t'] [|i]; simpl; try congruence.
  apply IH.
Qed.

Lemma nth_error_combine_None_l {A B : Type} (a : list A) (b : list B) (i : nat) :
  nth_error a i = None -> nth_error (combine a b) i = None.
Proof.
  revert b i. induction a as [|h t IH]; intros [|h' t'] [|i]; simpl; try congruence.
  apply IH.
Qed.

Lemma load_and_prepare_data_Ok (data : DataFrame) (u p : Series) :
  getitem data uptake_vol = Ok u ->
  getitem data pore_volume = Ok p ->
  load_and_prepare_data data =
  Ok (setitem (setitem data "Target" (target_expr u p)) "Target"
        (mul_scalar (target_expr u p) two)).
Proof.
  intros Hu Hp. unfold load_and_prepare_data.
  rewrite Hu, Hp. simpl. rewrite getitem_setitem_eq. reflexivity.
Qed.

Lemma load_and_prepare_data_inv (data data' : DataFrame) :
  load_and_prepare_data data = Ok data' ->
  exists u p,
    getitem data uptake_vol = Ok u /\
    getitem data pore_volume = Ok p /\
    data' = setitem (setitem data "Target" (target_expr u p)) "Target"
              (mul_scalar (target_expr u p) two).
Proof.
  intro H.
  destruct (getitem data uptake_vol) as [u| |] eqn:Hu;
    [|unfold load_and_prepare_data in H; rewrite Hu in H; discriminate ..].
  destruct (getitem data pore_volume) as [p| |] eqn:Hp;
    [|unfold load_and_prepare_data in H; rewrite Hu, Hp in H; discriminate ..].
  rewrite (load_and_prepare_data_Ok _ _ _ Hu Hp) in H.
  exists u, p. repeat split; congruence.
Qed.

Lemma target_expr_nth (u p : Series) (i : nat) (ui pi : float64) :
  nth_error u i = Some ui -> nth_error p i = Some pi ->
  nth_error (mul_scalar (target_expr u p) two) i =
  Some (fmul (fadd (fmul half ui) (fmul half (fdiv one pi))) two).
Proof.
  intros Hu Hp.
  unfold mul_scalar, target_expr, add_series, scalar_mul, scalar_div.
  rewrite nth_error_map.
  rewrite nth_error_map.
  rewrite (nth_error_combine _ _ i (fmul half ui) (fmul half (fdiv one pi))).
  - reflexivity.
  - now rewrite nth_error_map, Hu.
  - now rewrite !nth_error_map, Hp.
Qed.

(** * Cell 3: selection and normalisation *)

Lemma column_names_NoDup : NoDup column_names.
Proof.
  unfold column_names. distinct_entries.
Qed.

Lemma In_features (k : string) :
  In k features <-> In k column_names /\ k <> "Target"%string.
Proof.
  unfold features. rewrite filter_In.
  rewrite negb_true_iff, String.eqb_neq. reflexivity.
Qed.

Lemma features_NoDup : NoDup features.
Proof. apply NoDup_filter. apply column_names_NoDup. Qed.

Lemma normalize_column_Ok (svm_data svm1 : DataFrame) (column : string) :
  normalize_column svm_data column = Ok svm1 ->
  (column = "Target"%string /\ svm1 = svm_data) \/
  (column <> "Target"%string /\
   exists s, lookup column (columns svm_data) = Some s /\
             svm1 = setitem svm_data column (min_max s)).
Proof.
  unfold normalize_column.
  destruct (String.eqb column "Target") eqn:E; simpl.
  - apply String.eqb_eq in E. intro H. left. split; congruence.
  - apply String.eqb_neq in E. intro H. right. split; [assumption|].
    unfold getitem in H.
    destruct (lookup column (columns svm_data)) as [s|]; simpl in H; [|congruence].
    exists s. split; congruence.
Qed.

(** The loop of cell 3, for any list of distinct labels: the frame keeps its
    index and its labels, every listed column other than [Target] is
    replaced by its rescaling, every other column is left as it was. *)
Lemma normalize_features_Ok (names : list string) :
  NoDup names ->
  forall svm_data svm',
  normalize_features names svm_data = Ok svm' ->
  index svm' = index svm_data /\
  column_labels svm' = column_labels svm_data /\
  (forall k, In k names -> k <> "Target"%string ->
     exists s, lookup k (columns svm_data) = Some s /\
               lookup k (columns svm') = Some (min_max s)) /\
  (forall k, ~ In k names \/ k = "Target"%string ->
     lookup k (columns svm') = lookup k (columns svm_data)).
Proof.
  induction names as [|c rest IH]; intros ND svm_data svm' H.
  - simpl in H. inversion H; subst. repeat split; try easy.
  - inversion ND as [|? ? Hc ND']; subst.
    simpl in H.
    destruct (normalize_column svm_data c) as [svm1| |] eqn:E1; simpl in H; try congruence.
    destruct (IH ND' _ _ H) as (Hi & Hl & Hin & Hout).
    destruct (normalize_column_Ok _ _ _ E1) as [[Ec ->]|[Nc [s [Hs ->]]]].
    + repeat split; auto.
      * intros k [->|Hk] Nk; [congruence | now apply Hin].
      * intros k [Hk|Hk]; apply Hout; [left; intro; apply Hk; now right | now right].
    + repeat split.
      * assumption.
      * rewrite Hl. unfold column_labels, setitem. simpl.
        apply assign_labels. congruence.
      * intros k [<-|Hk] Nk.
        -- exists s. split; [assumption|].
           rewrite Hout by now left.
           simpl. apply lookup_assign_eq.
        -- destruct (Hin k Hk Nk) as [s' [Hs' Hm]].
           exists s'. split; [|assumption].
           simpl in Hs'. rewrite lookup_assign_neq in Hs'; [assumption|].
           intro; subst; contradiction.
      * intros k Hk. rewrite Hout.
        -- simpl. apply lookup_assign_neq.
           destruct Hk as [Hk| ->]; [|congruence].
           intro; subst. apply Hk. now left.
        -- destruct Hk as [Hk|Hk]; [left; intro; apply Hk; now right | now right].
Qed.

Lemma normalize_features_total (names : list string) :
  forall svm_data,
  (forall k, In k names -> k <> "Target"%string -> lookup k (columns svm_data) <> None) ->
  exists svm', normalize_features names svm_data = Ok svm'.
Proof.
  induction names as [|c rest IH]; intros svm_data H; simpl; [now eexists|].
  unfold normalize_column.
  destruct (String.eqb c "Target") eqn:E; simpl.
  - apply IH. intros; apply H; auto. now right.
  - apply String.eqb_neq in E. unfold getitem.
    destruct (lookup c (columns svm_data)) as [s|] eqn:Hs;
      [|exfalso; apply (H c); auto; now left].
    simpl. apply IH. intros k Hk Nk. simpl.
    destruct (String.eqb k c) eqn:Ek.
    + apply String.eqb_eq in Ek. subst. rewrite lookup_assign_eq. congruence.
    + apply String.eqb_neq in Ek. rewrite lookup_assign_neq by assumption.
      apply H; auto. now right.
Qed.

(** Cell 3 as a whole. *)
Lemma feature_engineering_Ok (data svm_data : DataFrame) :
  feature_engineering data = Ok svm_data ->
  index svm_data = index data /\
  column_labels svm_data = column_names /\
  (forall k, In k features ->
     exists s, lookup k (columns data) = Some s /\
               lookup k (columns svm_data) = Some (min_max s)) /\
  (exists t, lookup "Target" (columns data) = Some t /\
             lookup "Target" (columns svm_data) = Some t).
Proof.
  unfold feature_engineering, getitem_list. intro H.
  destruct (getitem_columns data column_names) as [cols| |] eqn:E; simpl in H; try congruence.
  destruct (getitem_columns_Ok _ _ _ E) as (L & I & O).
  destruct (normalize_features_Ok _ column_names_NoDup _ _ H) as (Hi & Hl & Hin & Hout).
  simpl in *. repeat split.
  - assumption.
  - rewrite Hl. exact L.
  - intros k Hk. apply In_features in Hk. destruct Hk as [Hk Nk].
    destruct (Hin k Hk Nk) as [s [Hs Hm]].
    exists s. split; [|assumption].
    rewrite <- Hs. symmetry. now apply I.
  - assert (In "Target"%string column_names) as HT
        by (unfold column_names; simpl; tauto).
    destruct (I _ HT) as [E1 E2].
    destruct (lookup "Target" (columns data)) as [t|] eqn:Et; [|congruence].
    exists t. split; [reflexivity|].
    rewrite Hout by now right. exact E1.
Qed.

Lemma feature_engineering_total (data : DataFrame) :
  (forall k, In k column_names -> lookup k (columns data) <> None) ->
  exists svm_data, feature_engineering data = Ok svm_data.
Proof.
  intro H. unfold feature_engineering, getitem_list.
  destruct (getitem_columns_total data column_names H) as [cols E].
  rewrite E. unfold bind.
  apply normalize_features_total. intros k Hk _. simpl.
  destruct (getitem_columns_Ok _ _ _ E) as (_ & I & _).
  destruct (I k Hk) as [-> ?]. assumption.
Qed.

(** * Cell 4: the filter and the fit matrix *)

Lemma prepare_features_and_target_Ok (svm_data X : DataFrame) (y : Series) :
  prepare_features_and_target svm_data = Ok (X, y) ->
  index X = select (notna_mask svm_data) (index svm_data) /\
  column_labels X = features /\
  (forall k, In k features ->
     exists s, lookup k (columns svm_data) = Some s /\
               lookup k (columns X) = Some (select (notna_mask svm_data) s)) /\
  (exists t, lookup "Target" (columns svm_data) = Some t /\
             y = select (notna_mask svm_data) t).
Proof.
  unfold prepare_features_and_target, getitem_list. intro H.
  destruct (getitem_columns (dropna svm_data) features) as [cols| |] eqn:E;
    unfold bind in H; try congruence.
  destruct (getitem (dropna svm_data) "Target") as [t'| |] eqn:Et; try congruence.
  inversion H; subst X y; clear H. simpl.
  destruct (getitem_columns_Ok _ _ _ E) as (L & I & O).
  apply getitem_Ok in Et. rewrite lookup_dropna in Et.
  repeat split.
  - exact L.
  - intros k Hk. destruct (I k Hk) as [E1 E2].
    rewrite lookup_dropna in E1, E2.
    destruct (lookup k (columns svm_data)) as [s|]; simpl in E1, E2;
      [|exfalso; now apply E2].
    exists s. split; [reflexivity | exact E1].
  - destruct (lookup "Target" (columns svm_data)) as [t|]; simpl in Et; [|congruence].
    exists t. split; congruence.
Qed.

Lemma prepare_features_and_target_total (svm_data : DataFrame) :
  (forall k, In k column_names -> lookup k (columns svm_data) <> None) ->
  exists X y, prepare_features_and_target svm_data = Ok (X, y).
Proof.
  intro H. unfold prepare_features_and_target, getitem_list.
  assert (forall k, In k column_names -> lookup k (columns (dropna svm_data)) <> None) as H'.
  { intros k Hk. rewrite lookup_dropna. specialize (H k Hk).
    destruct (lookup k (columns svm_data)); simpl; congruence. }
  destruct (getitem_columns_total (dropna svm_data) features) as [cols E].
  { intros k Hk. apply H'. now apply In_features in Hk. }
  rewrite E. unfold bind, getitem.
  destruct (lookup "Target" (columns (dropna svm_data))) as [t|] eqn:Et.
  - now eexists _, _.
  - exfalso. apply (H' "Target"%string); [|assumption].
    unfold column_names; simpl; tauto.
Qed.

Lemma fit_matrix_inv (data X : DataFrame) (y : Series) :
  fit_matrix data = Ok (X, y) ->
  exists data' svm_data,
    load_and_prepare_data data = Ok data' /\
    feature_engineering data' = Ok svm_data /\
    prepare_features_and_target svm_data = Ok (X, y).
Proof.
  unfold fit_matrix. intro H.
  destruct (load_and_prepare_data data) as [data'| |] eqn:E1;
    unfold bind in H; try congruence.
  destruct (feature_engineering data') as [svm_data| |] eqn:E2; try congruence.
  exists data', svm_data. repeat split; assumption.
Qed.

(** Cell 2 touches the column [Target] only. *)
Lemma load_and_prepare_data_frame (data data' : DataFrame) :
  load_and_prepare_data data = Ok data' ->
  index data' = index data /\
  (forall k, k <> "Target"%string ->
     lookup k (columns data') = lookup k (columns data)) /\
  lookup "Target" (columns data') <> None.
Proof.
  intro H. destruct (load_and_prepare_data_inv _ _ H) as (u & p & Hu & Hp & ->).
  simpl. repeat split.
  - intros k Nk. now rewrite !lookup_assign_neq.
  - rewrite lookup_assign_eq. congruence.
Qed.

Lemma Target_not_feature : ~ In "Target"%string features.
Proof. rewrite In_features. tauto. Qed.

Lemma feature_in_column_names (k : string) : In k features -> In k column_names.
Proof. rewrite In_features. tauto. Qed.

(** The notebook reaches the fit matrix as soon as the table has the
    eighteen feature columns. *)
Lemma fit_matrix_total (data : DataFrame) :
  (forall k, In k features -> lookup k (columns data) <> None) ->
  exists X y, fit_matrix data = Ok (X, y).
Proof.
  intro H. unfold fit_matrix.
  assert (In uptake_vol features) as Fu by (vm_compute; tauto).
  assert (In pore_volume features) as Fp by (vm_compute; tauto).
  destruct (lookup uptake_vol (columns data)) as [u|] eqn:Eu; [|now apply H in Fu].
  destruct (lookup pore_volume (columns data)) as [p|] eqn:Ep; [|now apply H in Fp].
  apply getitem_Ok in Eu, Ep.
  pose proof (load_and_prepare_data_Ok _ _ _ Eu Ep) as E2.
  rewrite E2. unfold bind at 1.
  destruct (load_and_prepare_data_frame _ _ E2) as (_ & Hk & Ht).
  destruct (feature_engineering_total
              (setitem (setitem data "Target" (target_expr u p)) "Target"
                 (mul_scalar (target_expr u p) two))) as [svm_data E3].
  { intros k Hk'. destruct (String.eqb k "Target") eqn:E.
    - apply String.eqb_eq in E. subst k. exact Ht.
    - apply String.eqb_neq in E. rewrite Hk by assumption.
      apply H. now apply In_features. }
  rewrite E3. unfold bind.
  apply prepare_features_and_target_total.
  intros k Hk'. apply lookup_In_labels.
  destruct (feature_engineering_Ok _ _ E3) as (_ & L & _).
  unfold column_labels in L. now rewrite L.
Qed.

(** * The target synthesizer *)

Lemma Qred_target (a b : Q) :
  ~ (b == 0)%Q ->
  fmul (fadd (fmul half (Finite a)) (fmul half (fdiv one (Finite b)))) two =
  Finite (Qred (Spec.target a b)).
Proof.
  intro Hb. unfold half, one, two. simpl.
  apply Qis_zero_false in Hb. rewrite Hb.
  apply Finite_Qred_eq. rewrite !Qred_correct. unfold Spec.target. ring.
Qed.

(** C1: for every record whose uptake_vol is not missing and whose
    pore_volume is neither missing nor zero, cell 2 sets Target to
    [2 * (0.5*uptake_vol + 0.5*(1/pore_volume))]: as the float expression
    and, for two numbers, as the rational value of the formula of the
    specification. *)
Theorem target_synthesizer_formula (data : DataFrame) (u p : Series) :
  getitem data uptake_vol = Ok u ->
  getitem data pore_volume = Ok p ->
  exists data' t,
    load_and_prepare_data data = Ok data' /\
    getitem data' "Target" = Ok t /\
    forall i ui pi,
      nth_error u i = Some ui -> nth_error p i = Some pi ->
      ui <> NaN -> pi <> NaN -> (forall b, pi = Finite b -> ~ (b == 0)%Q) ->
      nth_error t i =
        Some (fmul two (fadd (fmul half ui) (fmul half (fdiv one pi)))) /\
      (forall a b, ui = Finite a -> pi = Finite b ->
         nth_error t i = Some (Finite (Qred (Spec.target a b)))).
Proof.
  intros Hu Hp.
  eexists _, (mul_scalar (target_expr u p) two).
  split; [apply (load_and_prepare_data_Ok _ _ _ Hu Hp)|].
  split; [apply getitem_setitem_eq|].
  intros i ui pi Hui Hpi Nu Np Nz.
  rewrite (target_expr_nth _ _ _ _ _ Hui Hpi).
  split.
  - f_equal. apply fmul_comm.
  - intros a b -> ->. f_equal. apply Qred_target. now apply Nz.
Qed.

Lemma target_synthesizer_formula_witness :
  exists data' t,
    load_and_prepare_data five_records = Ok data' /\
    getitem data' "Target" = Ok t /\
    nth_error t 0 = Some (Finite (33 # 4)).
Proof.
  edestruct (target_synthesizer_formula five_records) as (data' & t & H1 & H2 & H3);
    [vm_compute; reflexivity | vm_compute; reflexivity |].
  exists data', t. split; [exact H1|]. split; [exact H2|].
  refine (proj2 (H3 0 (Finite 8) (Finite 4) eq_refl eq_refl _ _ _) 8%Q 4%Q eq_refl eq_refl).
  - discriminate.
  - discriminate.
  - intros b E. inversion E; subst. discriminate.
Defined.

(** * The feature normalizer *)

Lemma min_max_nth (s : Series) (i : nat) :
  nth_error (min_max s) i =
  option_map (fun v => fdiv (fsub v (series_min s))
                         (fsub (series_max s) (series_min s)))
             (nth_error s i).
Proof.
  unfold min_max, div_scalar, sub_scalar.
  rewrite !nth_error_map. now destruct (nth_error s i).
Qed.

Lemma min_max_length (s : Series) : List.length (min_max s) = List.length s.
Proof. unfold min_max, div_scalar, sub_scalar. now rewrite !length_map. Qed.

Lemma between_finite (v : float64) (m M : Q) :
  v <> NaN -> fltb v (Finite m) = false -> fltb (Finite M) v = false ->
  exists a, v = Finite a /\ (m <= a <= M)%Q.
Proof.
  destruct v as [a|s|]; simpl; try congruence.
  - rewrite !Qltb_false. intros _ L U. now exists a.
  - destruct s; simpl; congruence.
Qed.

(** Between a finite minimum and a finite maximum a column holds numbers
    and missing markers only. *)
Lemma column_between (s : Series) (m M : Q) (v : float64) :
  series_min s = Finite m -> series_max s = Finite M ->
  In v s -> v <> NaN -> exists a, v = Finite a /\ (m <= a <= M)%Q.
Proof.
  intros Hm HM Hin Hv. apply between_finite; auto.
  - rewrite <- Hm. now apply series_min_le.
  - rewrite <- HM. now apply series_max_ge.
Qed.

Lemma rescale_finite (a m M : Q) :
  ~ (M - m == 0)%Q ->
  fdiv (fsub (Finite a) (Finite m)) (fsub (Finite M) (Finite m)) =
  Finite (Qred (Spec.rescale a m M)).
Proof.
  intro H. simpl. rewrite Qis_zero_Qred.
  apply Qis_zero_false in H. rewrite H.
  apply Finite_Qred_eq. rewrite !Qred_correct. reflexivity.
Qed.

Lemma rescale_degenerate (a m M : Q) :
  (M - m == 0)%Q -> (a - m == 0)%Q ->
  fdiv (fsub (Finite a) (Finite m)) (fsub (Finite M) (Finite m)) = NaN.
Proof.
  intros H1 H2. simpl. rewrite !Qis_zero_Qred.
  apply Qis_zero_spec in H1, H2. now rewrite H1, H2.
Qed.

(** C9: the loop of cell 3 leaves the column Target as it was, record by
    record, and replaces each of the eighteen feature columns by its
    rescaling. *)
Theorem normalizer_preserves_target (data svm_data : DataFrame) :
  feature_engineering data = Ok svm_data ->
  index svm_data = index data /\
  (exists t, getitem data "Target" = Ok t /\ getitem svm_data "Target" = Ok t) /\
  (forall c, In c features ->
     exists s, getitem data c = Ok s /\ getitem svm_data c = Ok (min_max s)).
Proof.
  intro H. destruct (feature_engineering_Ok _ _ H) as (Hi & _ & Hf & t & Ht & Ht').
  split; [assumption|]. split.
  - exists t. split; now apply getitem_Ok.
  - intros c Hc. destruct (Hf c Hc) as (s & Hs & Hs').
    exists s. split; now apply getitem_Ok.
Qed.

Lemma normalizer_preserves_target_witness :
  getitem (normalized five_records) "Target" =
  getitem (with_target five_records) "Target".
Proof.
  destruct (normalizer_preserves_target (with_target five_records) (normalized five_records))
    as (_ & (t & H1 & H2) & _); [vm_compute; reflexivity|].
  now rewrite H1, H2.
Defined.




(** * The missing-value filter *)

Lemma row_notna_false (df : DataFrame) (key : string) (s : Series) (i : nat) :
  lookup key (columns df) = Some s -> nth i s NaN = NaN -> row_notna df i = false.
Proof.
  intros Hs Hn. unfold row_notna.
  destruct (forallb (fun c => notna (nth i (snd c) NaN)) (columns df)) eqn:E;
    [|reflexivity].
  rewrite forallb_forall in E. specialize (E _ (lookup_In _ _ _ Hs)).
  simpl in E. now rewrite Hn in E.
Qed.

(** A row that holds a missing value loses its label. *)
Lemma dropped_label (df : DataFrame) (i r : nat) :
  NoDup (index df) -> nth_error (index df) i = Some r -> row_notna df i = false ->
  ~ In r (select (notna_mask df) (index df)).
Proof.
  intros ND Hi Hf Hin. unfold notna_mask in Hin.
  destruct (select_In _ _ _ _ _ Hin) as (j & Hj & Hn & Ht). simpl in Ht.
  assert (i = j) as ->; [|congruence].
  apply (proj1 (NoDup_nth_error (index df)) ND).
  - apply nth_error_Some. congruence.
  - congruence.
Qed.

(** A complete row keeps its label. *)
Lemma kept_label (df : DataFrame) (i r : nat) :
  nth_error (index df) i = Some r -> row_notna df i = true ->
  In r (select (notna_mask df) (index df)).
Proof.
  intros Hi Ht. unfold notna_mask.
  apply (In_select _ _ _ 0 (nrows df) i); auto.
  apply nth_error_Some. congruence.
Qed.

Lemma notna_mask_length (df : DataFrame) : List.length (notna_mask df) = nrows df.
Proof. unfold notna_mask. now rewrite length_map, length_seq. Qed.


Lemma one_row_dropped_of_five (f : nat -> bool) (i : nat) :
  i < 5 -> f i = false -> (forall j, j < 5 -> j <> i -> f j = true) ->
  List.length (filter (fun b => b) (map f (seq 0 5))) = 4.
Proof.
  intros Hi Hf Ht.
  assert (forall j, j < 5 -> f j = negb (j =? i)) as E.
  { intros j Hj. destruct (Nat.eqb_spec j i) as [->|N]; simpl; auto. }
  simpl. rewrite !E by lia.
  destruct i as [|[|[|[|[|]]]]]; try lia; reflexivity.
Qed.



(** * From the table to the fit matrix *)

Lemma target_of_missing_input (ui pi : float64) :
  ui = NaN \/ pi = NaN ->
  fmul (fadd (fmul half ui) (fmul half (fdiv one pi))) two = NaN.
Proof.
  intros [-> | ->].
  - reflexivity.
  - unfold half. now destruct ui.
Qed.

Lemma target_of_zero_pore_volume (a b : Q) :
  (b == 0)%Q ->
  fmul (fadd (fmul half (Finite a)) (fmul half (fdiv one (Finite b)))) two = PInf.
Proof.
  intro Hb. apply Qis_zero_spec in Hb.
  unfold half, one, two. simpl. rewrite Hb. reflexivity.
Qed.

Lemma target_notna (a b : Q) :
  fmul (fadd (fmul half (Finite a)) (fmul half (fdiv one (Finite b)))) two <> NaN.
Proof.
  destruct (Qis_zero b) eqn:E.
  - apply Qis_zero_spec in E. now rewrite (target_of_zero_pore_volume _ _ E).
  - apply Qis_zero_false in E. now rewrite (Qred_target _ _ E).
Qed.

Lemma In_lookup (key : string) (s : Series) cols :
  NoDup (map fst cols) -> In (key, s) cols -> lookup key cols = Some s.
Proof.
  induction cols as [|[k c] rest IH]; simpl; intros ND H; [easy|].
  inversion ND as [|? ? Hk ND']; subst.
  destruct H as [H|H].
  - inversion H; subst. now rewrite String.eqb_refl.
  - destruct (String.eqb k key) eqn:E; [|now apply IH].
    apply String.eqb_eq in E. subst k. exfalso. apply Hk.
    change key with (fst (key, s)). now apply in_map.
Qed.

Lemma target_expr_length (u p : Series) :
  List.length (mul_scalar (target_expr u p) two) =
  Nat.min (List.length u) (List.length p).
Proof.
  unfold mul_scalar, target_expr, add_series, scalar_mul, scalar_div.
  now rewrite !length_map, length_combine, !length_map.
Qed.

(** Five records of which one lacks its pore volume, every other feature
    value being a number and no feature column being constant: cells 2 to 4
    hand four records to the split. *)
Lemma fit_matrix_five_records (data : DataFrame) (i : nat) :
  well_formed data -> nrows data = 5 -> i < 5 ->
  (forall k, In k features ->
     exists col m M,
       getitem data k = Ok col /\
       series_min col = Finite m /\ series_max col = Finite M /\ (m < M)%Q /\
       forall j, j < 5 ->
         (nth_error col j = Some NaN /\ k = pore_volume /\ j = i) \/
         ((exists a, nth_error col j = Some (Finite a)) /\
          (k <> pore_volume \/ j <> i))) ->
  exists X y, fit_matrix data = Ok (X, y) /\ nrows X = 4 /\ List.length y = 4.
Proof.
  intros (ND & NDl & WF) N5 Hi Hfeat.
  assert (forall k, In k features -> lookup k (columns data) <> None) as Hall.
  { intros k Hk. destruct (Hfeat k Hk) as (col & _ & _ & Hcol & _).
    apply getitem_Ok in Hcol. congruence. }
  destruct (fit_matrix_total data Hall) as (X & y & HF).
  exists X, y. split; [assumption|].
  destruct (fit_matrix_inv _ _ _ HF) as (data' & svm_data & H2 & H3 & H4).
  destruct (load_and_prepare_data_inv _ _ H2) as (u & p & Hu & Hp & Ed).
  destruct (load_and_prepare_data_frame _ _ H2) as (Hi2 & Hk2 & _).
  destruct (feature_engineering_Ok _ _ H3) as (Hi3 & Hl3 & Hf3 & t & Ht & Ht').
  destruct (prepare_features_and_target_Ok _ _ _ H4) as (HiX & _ & _ & t' & Ht'' & Ey).
  assert (t' = t) as -> by congruence.
  assert (t = mul_scalar (target_expr u p) two) as Et.
  { rewrite Ed in Ht. simpl in Ht. rewrite lookup_assign_eq in Ht. congruence. }
  assert (In uptake_vol features) as Fu by (vm_compute; tauto).
  assert (In pore_volume features) as Fp by (vm_compute; tauto).
  assert (forall k, In k features ->
            exists col m M,
              lookup k (columns svm_data) = Some (min_max col) /\
              getitem data k = Ok col /\
              series_min col = Finite m /\ series_max col = Finite M /\ (m < M)%Q) as Hnorm.
  { intros k Hk. destruct (Hfeat k Hk) as (col & m & M & Hcol & Hm & HM & Hlt & _).
    destruct (Hf3 k Hk) as (s & Hs & Hs').
    rewrite Hk2 in Hs by (apply In_features in Hk; tauto).
    apply getitem_Ok in Hcol. assert (s = col) as -> by congruence.
    exists col, m, M. repeat split; auto. now apply getitem_Ok. }
  assert (nrows svm_data = 5) as N5' by (unfold nrows; now rewrite Hi3, Hi2).
  assert (row_notna svm_data i = false) as Hrow.
  { destruct (Hnorm _ Fp) as (col & m & M & Hs & Hcol & _).
    destruct (Hfeat _ Fp) as (col0 & _ & _ & Hcol0 & _ & _ & _ & Hcells).
    assert (col0 = col) as -> by congruence.
    apply (row_notna_false svm_data pore_volume (min_max col)); [assumption|].
    apply nth_error_nth. rewrite min_max_nth.
    destruct (Hcells i Hi) as [(Hn & _)|(_ & [N|N])]; [|congruence ..].
    now rewrite Hn. }
  assert (forall j, j < 5 -> j <> i -> row_notna svm_data j = true) as Hrest.
  { intros j Hj Nj. unfold row_notna. apply forallb_forall.
    intros [k s] Hin. cbn [snd]. apply notna_true.
    assert (lookup k (columns svm_data) = Some s) as Hs.
    { apply In_lookup; [|assumption].
      fold (column_labels svm_data). rewrite Hl3. apply column_names_NoDup. }
    assert (In k column_names) as Hk.
    { rewrite <- Hl3. change k with (fst (k, s)). now apply in_map. }
    destruct (String.eqb k "Target") eqn:Ek.
    - apply String.eqb_eq in Ek. subst k.
      assert (s = t) as -> by congruence. subst t.
      destruct (Hfeat _ Fu) as (cu & _ & _ & Hcu & _ & _ & _ & Cu).
      destruct (Hfeat _ Fp) as (cp & _ & _ & Hcp & _ & _ & _ & Cp).
      assert (cu = u) as -> by congruence. assert (cp = p) as -> by congruence.
      destruct (Cu j Hj) as [(_ & Eq & _)|((a & Ha) & _)]; [discriminate Eq|].
      destruct (Cp j Hj) as [(_ & _ & Eq)|((b & Hb) & _)]; [congruence|].
      rewrite (nth_error_nth _ _ _ (target_expr_nth _ _ _ _ _ Ha Hb)).
      apply target_notna.
    - apply String.eqb_neq in Ek.
      assert (In k features) as Hkf by (apply In_features; tauto).
      destruct (Hnorm k Hkf) as (col & m & M & Hs' & Hcol & Hm & HM & Hlt).
      assert (s = min_max col) as -> by congruence.
      destruct (Hfeat k Hkf) as (col0 & _ & _ & Hcol0 & _ & _ & _ & Hcells).
      assert (col0 = col) as -> by congruence.
      destruct (Hcells j Hj) as [(_ & _ & Eq)|((a & Ha) & _)]; [congruence|].
      assert (nth_error (min_max col) j =
              Some (Finite (Qred (Spec.rescale a m M)))) as Hv.
      { rewrite min_max_nth, Ha, Hm, HM. simpl option_map. f_equal.
        apply rescale_finite. intro; lra. }
      rewrite (nth_error_nth _ _ _ Hv). discriminate. }
  assert (List.length (filter (fun b => b) (notna_mask svm_data)) = 4) as Hcount.
  { unfold notna_mask. rewrite N5'. now apply one_row_dropped_of_five with (i := i). }
  split.
  - unfold nrows. rewrite HiX, select_length; [assumption|].
    now rewrite notna_mask_length.
  - subst y. rewrite select_length; [assumption|].
    rewrite notna_mask_length, N5', Et, target_expr_length.
    rewrite Forall_forall in WF.
    apply getitem_Ok in Hu, Hp.
    pose proof (WF _ (lookup_In _ _ _ Hu)) as Lu.
    pose proof (WF _ (lookup_In _ _ _ Hp)) as Lp.
    cbn [snd] in Lu, Lp. rewrite Lu, Lp, N5. reflexivity.
Qed.

(** * Missing and zero inputs of the target synthesizer *)

(** C2, as stated, fails: the second record of [zero_pore_records] has
    pore volume zero and uptake 16; cell 2 gives it the target [+inf], which
    is no missing value, and cell 4 keeps the record in the fit matrix. *)
Lemma zero_pore_volume_target_not_missing :
  exists X y t,
    getitem zero_pore_records pore_volume = Ok [Finite 4; Finite 0; Finite 12] /\
    getitem zero_pore_records uptake_vol = Ok [Finite 8; Finite 16; Finite 24] /\
    getitem (with_target zero_pore_records) "Target" = Ok t /\
    nth_error t 1 = Some PInf /\
    isna PInf = false /\
    fit_matrix zero_pore_records = Ok (X, y) /\
    index X = [0; 1; 2] /\
    nth_error y 1 = Some PInf.
Proof.
  eexists _, _, _.
  split; [vm_compute; reflexivity|].
  split; [vm_compute; reflexivity|].
  split; [vm_compute; reflexivity|].
  split; [reflexivity|].
  split; [reflexivity|].
  split; [vm_compute; reflexivity|].
  split; reflexivity.
Qed.

(** C2, amended: a record whose uptake_vol or pore_volume is missing gets a
    missing Target, without an exception, and cell 4 leaves it out of the fit
    matrix; a record whose pore_volume is zero and whose uptake_vol is a
    number gets the target [+inf], which is no missing value. *)
Theorem missing_input_gives_missing_target (data X : DataFrame) (y u p : Series) :
  NoDup (index data) ->
  getitem data uptake_vol = Ok u ->
  getitem data pore_volume = Ok p ->
  fit_matrix data = Ok (X, y) ->
  exists data' t,
    load_and_prepare_data data = Ok data' /\
    getitem data' "Target" = Ok t /\
    forall i r ui pi,
      nth_error (index data) i = Some r ->
      nth_error u i = Some ui -> nth_error p i = Some pi ->
      (ui = NaN \/ pi = NaN ->
         nth_error t i = Some NaN /\ ~ In r (index X)) /\
      (forall a b, ui = Finite a -> pi = Finite b -> (b == 0)%Q ->
         nth_error t i = Some PInf /\ isna PInf = false).
Proof.
  intros ND Hu Hp HF.
  destruct (fit_matrix_inv _ _ _ HF) as (data' & svm_data & H2 & H3 & H4).
  pose proof (load_and_prepare_data_Ok _ _ _ Hu Hp) as H2'.
  rewrite H2 in H2'. inversion H2' as [Ed]; clear H2'.
  exists data', (mul_scalar (target_expr u p) two).
  split; [assumption|].
  assert (getitem data' "Target" = Ok (mul_scalar (target_expr u p) two)) as HT
      by (rewrite Ed; apply getitem_setitem_eq).
  split; [assumption|].
  intros i r ui pi Hr Hui Hpi.
  rewrite (target_expr_nth _ _ _ _ _ Hui Hpi).
  split.
  - intro Hna. rewrite (target_of_missing_input _ _ Hna).
    split; [reflexivity|].
    destruct (feature_engineering_Ok _ _ H3) as (Hi & _ & _ & t & Ht & Ht').
    destruct (prepare_features_and_target_Ok _ _ _ H4) as (HiX & _).
    destruct (load_and_prepare_data_frame _ _ H2) as (Hi2 & _).
    rewrite HiX.
    apply dropped_label with (i := i).
    + rewrite Hi, Hi2. exact ND.
    + rewrite Hi, Hi2. exact Hr.
    + apply (row_notna_false svm_data "Target" t); [assumption|].
      apply nth_error_nth.
      apply getitem_Ok in HT. rewrite Ht in HT. inversion HT; subst t.
      rewrite (target_expr_nth _ _ _ _ _ Hui Hpi).
      now rewrite (target_of_missing_input _ _ Hna).
  - intros a b -> -> Hb. now rewrite (target_of_zero_pore_volume _ _ Hb).
Qed.

Lemma missing_input_gives_missing_target_witness :
  exists X y t,
    fit_matrix five_records = Ok (X, y) /\
    getitem (with_target five_records) "Target" = Ok t /\
    nth_error t 2 = Some NaN /\ ~ In 2 (index X).
Proof.
  assert (exists X y, fit_matrix five_records = Ok (X, y)) as (X & y & HF)
      by (eexists _, _; vm_compute; reflexivity).
  destruct (missing_input_gives_missing_target five_records X y
              [Finite 8; Finite 16; Finite 24; Finite 32; Finite 40]
              [Finite 4; Finite 8; NaN; Finite 16; Finite 20])
    as (data' & t & H1 & H2 & H3).
  - vm_compute. distinct_entries.
  - vm_compute; reflexivity.
  - vm_compute; reflexivity.
  - exact HF.
  - exists X, y, t. split; [exact HF|].
    split; [unfold with_target; now rewrite H1|].
    apply (proj1 (H3 2 2 (Finite 24) NaN eq_refl eq_refl eq_refl)).
    now right.
Defined.

(** * Normalisation before filtering *)



(** * Columns of zero variance *)

Lemma min_max_degenerate (col : Series) (m M : Q) :
  series_min col = Finite m -> series_max col = Finite M -> (m == M)%Q ->
  forall v, In v (min_max col) -> v = NaN.
Proof.
  intros Hm HM E v Hv.
  destruct (In_nth_error _ _ Hv) as [i Hi].
  rewrite min_max_nth in Hi.
  destruct (nth_error col i) as [x|] eqn:Hx; simpl in Hi; [|congruence].
  inversion Hi as [Ev]; clear Hi.
  destruct x as [a|s|] eqn:Ex; [| |reflexivity].
  - destruct (column_between col m M (Finite a) Hm HM (nth_error_In _ _ Hx))
      as (a' & Ea & B); [congruence|].
    inversion Ea; subst a'.
    rewrite Hm, HM. apply rescale_degenerate; lra.
  - destruct (column_between col m M (Inf s) Hm HM (nth_error_In _ _ Hx))
      as (a' & Ea & B); congruence.
Qed.

Lemma select_all_false {A : Type} (mask : list bool) (l : list A) :
  (forall b, In b mask -> b = false) -> select mask l = [].
Proof.
  revert l. induction mask as [|b m IH]; intros l H; [reflexivity|].
  assert (b = false) as -> by (apply H; now left).
  destruct l; simpl; [reflexivity|]. apply IH. intros; apply H; now right.
Qed.

(** A column made of missing markers empties the frame under [dropna]. *)
Lemma all_rows_dropped {A : Type} (df : DataFrame) (key : string) (s : Series) (l : list A) :
  lookup key (columns df) = Some s -> (forall v, In v s -> v = NaN) ->
  select (notna_mask df) l = [].
Proof.
  intros Hs Hall. apply select_all_false.
  intros b Hb. unfold notna_mask in Hb. apply in_map_iff in Hb.
  destruct Hb as (i & <- & _).
  apply (row_notna_false df key s); [assumption|].
  destruct (Nat.lt_ge_cases i (List.length s)) as [L|L].
  - apply Hall. now apply nth_In.
  - now apply nth_overflow.
Qed.

Lemma train_test_split_empty (X : DataFrame) (seed : option Z) (global : mt19937_state) :
  nrows X = 0 ->
  train_test_split X [] test_size seed global =
  (Raise (ValueError "the resulting train set will be empty"), global).
Proof.
  intro H. unfold train_test_split. rewrite H. reflexivity.
Qed.

(** C4, as stated, fails: in [right_angle_records] the column
    cell_angle_alpha is 90 in every record; cell 3 turns every entry of it
    into the missing marker, cell 4 then drops every record, and the call of
    [train_test_split] raises [ValueError]. *)
Lemma zero_variance_column_aborts_run :
  getitem right_angle_records "cell_angle_alpha" = Ok [Finite 90; Finite 90; Finite 90] /\
  getitem (normalized right_angle_records) "cell_angle_alpha" = Ok [NaN; NaN; NaN] /\
  fit_matrix right_angle_records =
    Ok ({| index := []; columns := map (fun k => (k, [])) features |}, []) /\
  notebook right_angle_records some_global =
    (Raise (ValueError "the resulting train set will be empty"), some_global).
Proof.
  split; [vm_compute; reflexivity|].
  split; [vm_compute; reflexivity|].
  split; vm_compute; reflexivity.
Qed.

(** C4, amended: when a feature column has zero variance (its minimum and
    its maximum over the values that are not missing are the same number),
    cell 3 raises nothing and turns every entry of that column into the
    missing marker NaN; cell 4 then drops every record, and
    [train_test_split] ends the run with [ValueError]. *)
Theorem zero_variance_column_all_missing (data : DataFrame) (c : string)
    (col : Series) (m M : Q) (global : mt19937_state) :
  (forall k, In k features -> lookup k (columns data) <> None) ->
  In c features ->
  getitem data c = Ok col ->
  series_min col = Finite m ->
  series_max col = Finite M ->
  (m == M)%Q ->
  exists data' svm_data col' X,
    load_and_prepare_data data = Ok data' /\
    feature_engineering data' = Ok svm_data /\
    getitem svm_data c = Ok col' /\
    List.length col' = List.length col /\
    (forall v, In v col' -> v = NaN) /\
    fit_matrix data = Ok (X, []) /\
    nrows X = 0 /\
    notebook data global =
      (Raise (ValueError "the resulting train set will be empty"), global).
Proof.
  intros Hall Hc Hcol Hm HM E.
  destruct (fit_matrix_total data Hall) as (X & y & HF).
  destruct (fit_matrix_inv _ _ _ HF) as (data' & svm_data & H2 & H3 & H4).
  destruct (load_and_prepare_data_frame _ _ H2) as (_ & Hk2 & _).
  destruct (feature_engineering_Ok _ _ H3) as (_ & _ & Hf3 & _).
  destruct (prepare_features_and_target_Ok _ _ _ H4) as (Hi4 & _ & _ & t & _ & Ey).
  destruct (Hf3 c Hc) as (s & Hs & Hs').
  assert (c <> "Target"%string) as Nc by (apply In_features in Hc; tauto).
  rewrite Hk2 in Hs by assumption.
  apply getitem_Ok in Hcol. assert (s = col) as -> by congruence.
  pose proof (min_max_degenerate col m M Hm HM E) as Hnan.
  assert (y = []) as -> by (subst y; now apply (all_rows_dropped svm_data c (min_max col))).
  assert (nrows X = 0) as HX.
  { unfold nrows. rewrite Hi4.
    now rewrite (all_rows_dropped svm_data c (min_max col)). }
  exists data', svm_data, (min_max col), X.
  split; [assumption|]. split; [assumption|].
  split; [now apply getitem_Ok|].
  split; [apply min_max_length|].
  split; [assumption|]. split; [assumption|]. split; [assumption|].
  unfold notebook. rewrite HF. now apply train_test_split_empty.
Qed.

Lemma zero_variance_column_all_missing_witness :
  exists X, fit_matrix right_angle_records = Ok (X, []) /\ nrows X = 0.
Proof.
  destruct (zero_variance_column_all_missing right_angle_records "cell_angle_alpha"
              [Finite 90; Finite 90; Finite 90] 90 90 some_global)
    as (data' & svm_data & col' & X & _ & _ & _ & _ & _ & HF & HX & _).
  - intros k Hk. vm_compute in Hk.
    repeat (destruct Hk as [<-|Hk]; [vm_compute; discriminate|]).
    destruct Hk.
  - vm_compute; tauto.
  - vm_compute; reflexivity.
  - vm_compute; reflexivity.
  - vm_compute; reflexivity.
  - reflexivity.
  - exists X. split; assumption.
Defined.

(** * The shuffle of [RandomState] *)

Lemma set_nth_length {A : Type} (n : nat) (a : A) (l : list A) :
  List.length (set_nth n a l) = List.length l.
Proof.
  revert n. induction l as [|h t IH]; intros [|n]; simpl; auto.
Qed.

Lemma nth_set_nth {A : Type} (d : A) (l : list A) :
  forall i j a, j < List.length l ->
  nth i (set_nth j a l) d = if i =? j then a else nth i l d.
Proof.
  induction l as [|h t IH]; intros i j a Hj; simpl in Hj; [lia|].
  destruct j as [|j], i as [|i]; simpl; auto.
  apply IH. lia.
Qed.

(** Overwriting one cell trades the old value for the new one. *)
Lemma set_nth_Permutation {A : Type} (d : A) (l : list A) :
  forall n a, n < List.length l ->
  Permutation (a :: l) (nth n l d :: set_nth n a l).
Proof.
  induction l as [|h t IH]; intros n a Hn; simpl in Hn; [lia|].
  destruct n as [|n]; simpl.
  - apply perm_swap.
  - eapply perm_trans; [apply perm_swap|].
    eapply perm_trans; [apply perm_skip, (IH n a); lia|].
    apply perm_swap.
Qed.

Lemma swap_Permutation (i j : nat) (x : list nat) :
  i < List.length x -> j < List.length x -> Permutation (swap i j x) x.
Proof.
  intros Hi Hj. unfold swap.
  apply Permutation_cons_inv with (a := nth i x 0).
  eapply perm_trans; [|symmetry; apply (set_nth_Permutation 0 x j (nth i x 0) Hj)].
  pose proof (set_nth_Permutation 0 (set_nth j (nth i x 0) x) i (nth j x 0)) as P.
  rewrite set_nth_length in P. specialize (P Hi).
  rewrite nth_set_nth in P by assumption.
  destruct (Nat.eqb_spec i j) as [->|N]; symmetry; exact P.
Qed.

Lemma swap_length (i j : nat) (x : list nat) :
  List.length (swap i j x) = List.length x.
Proof. unfold swap. now rewrite !set_nth_length. Qed.

(** The rejection loop hands out accepted draws only. *)
Lemma draw_until_S (next : mt19937_state -> Z * mt19937_state) (fuel : nat)
    (mask max : Z) (state : mt19937_state) :
  draw_until next (S fuel) mask max state =
  let (word, state') := next state in
  if (Z.land word mask <=? max)%Z then Some (Z.land word mask, state')
  else draw_until next fuel mask max state'.
Proof. reflexivity. Qed.

Lemma draw_until_le (next : mt19937_state -> Z * mt19937_state) (fuel : nat)
    (mask max : Z) :
  forall state value state',
  draw_until next fuel mask max state = Some (value, state') -> (value <= max)%Z.
Proof.
  induction fuel as [|fuel IH]; intros state value state' H; [discriminate|].
  rewrite draw_until_S in H.
  generalize dependent (next state). intros [word state1] H.
  destruct (Z.land word mask <=? max)%Z eqn:E.
  - injection H as <- _. apply Z.leb_le. exact E.
  - exact (IH _ _ _ H).
Qed.

Lemma random_interval_le (state state' : mt19937_state) (max j : nat) :
  random_interval state max = Some (j, state') -> j <= max.
Proof.
  unfold random_interval. destruct max as [|max].
  - intro H. injection H as <- _. apply Nat.le_refl.
  - cbv zeta. generalize max_draws.
    generalize (if (Z.of_nat (S max) <=? 0xffffffff)%Z
                then mt19937_next else mt19937_next64).
    intros next fuel H.
    destruct (draw_until next fuel (interval_mask (Z.of_nat (S max)))
                (Z.of_nat (S max)) state)
      as [[value state1]|] eqn:E; [|discriminate].
    injection H as <- _.
    apply draw_until_le in E. lia.
Qed.

Lemma _shuffle_raw_S (i : nat) (state : mt19937_state) (x : list nat) :
  _shuffle_raw (S i) state x =
  match random_interval state (S i) with
  | Some (j, state') => _shuffle_raw i state' (swap (S i) j x)
  | None => None
  end.
Proof. reflexivity. Qed.

Lemma _shuffle_raw_Permutation (i : nat) :
  forall state x x' state',
  i < List.length x ->
  _shuffle_raw i state x = Some (x', state') -> Permutation x' x.
Proof.
  induction i as [|i IH]; intros state x x' state' Hi H.
  - injection H as <- _. apply Permutation_refl.
  - rewrite _shuffle_raw_S in H.
    destruct (random_interval state (S i)) as [[j state1]|] eqn:E; [|discriminate].
    apply random_interval_le in E.
    assert (i < List.length (swap (S i) j x)) as Hi' by (rewrite swap_length; lia).
    eapply perm_trans.
    + exact (IH _ _ _ _ Hi' H).
    + apply swap_Permutation; lia.
Qed.

(** Whatever the generator draws, [permutation n] is a permutation of
    [0 .. n-1]. *)
Lemma permutation_Permutation (state state' : mt19937_state) (n : nat) (perm : list nat) :
  permutation state n = Some (perm, state') -> Permutation perm (seq 0 n).
Proof.
  unfold permutation. destruct n as [|n].
  - intro H. injection H as <- _. apply Permutation_refl.
  - apply _shuffle_raw_Permutation. rewrite length_seq. lia.
Qed.

(** * The split *)


Lemma take_length {A : Type} (d : A) (positions : list nat) (l : list A) :
  List.length (take d positions l) = List.length positions.
Proof. unfold take. apply length_map. Qed.


Lemma ceil_fifth (n : nat) :
  n <= 5 * Z.to_nat (Qceiling ((1 # 5) * inject_Z (Z.of_nat n))) < n + 5.
Proof.
  unfold Qceiling, Qfloor, Qmult, Qopp, inject_Z. cbn [Qnum Qden].
  change (Z.pos (5 * 1)) with 5%Z. rewrite Z.mul_1_l.
  Z.to_euclidean_division_equations. lia.
Qed.

Lemma _validate_shuffle_split_fifth (n : nat) :
  _validate_shuffle_split n test_size =
  let n_test := Z.to_nat (Qceiling ((1 # 5) * inject_Z (Z.of_nat n))) in
  if n - n_test =? 0
  then Raise (ValueError "the resulting train set will be empty")
  else Ok (n - n_test, n_test).
Proof. reflexivity. Qed.

(** The sizes computed for [test_size = 0.2]: the test set takes the
    ceiling of a fifth of the records. *)
Lemma _validate_shuffle_split_Ok (n n_train n_test : nat) :
  _validate_shuffle_split n test_size = Ok (n_train, n_test) ->
  n <= 5 * n_test < n + 5 /\ n_train + n_test = n /\ 0 < n_train.
Proof.
  rewrite _validate_shuffle_split_fifth. cbv zeta.
  pose proof (ceil_fifth n) as Ht.
  destruct (n - _ =? 0) eqn:E; [discriminate|].
  apply Nat.eqb_neq in E. intro H. injection H as <- <-. lia.
Qed.


(** What a seeded call returns, laid out. *)
Lemma train_test_split_Ok (X : DataFrame) (y : Series) (seed : Z)
    (global : mt19937_state) (s : splitting) :
  fst (train_test_split X y test_size (Some seed) global) = Ok s ->
  exists n_train n_test rng perm rng',
    List.length y = nrows X /\
    _validate_shuffle_split (nrows X) test_size = Ok (n_train, n_test) /\
    RandomState seed = Ok rng /\
    permutation rng (nrows X) = Some (perm, rng') /\
    s = (iloc X (firstn n_train (skipn n_test perm)),
         iloc X (firstn n_test perm),
         take NaN (firstn n_train (skipn n_test perm)) y,
         take NaN (firstn n_test perm) y).
Proof.
  unfold train_test_split. cbn [check_random_state].
  destruct (List.length y =? nrows X) eqn:El; cbn [negb]; [|discriminate].
  apply Nat.eqb_eq in El.
  destruct (_validate_shuffle_split (nrows X) test_size) as [[n_train n_test]| |];
    cbn [bind fst snd]; try discriminate.
  destruct (RandomState seed) as [rng| |]; cbn [bind]; try discriminate.
  unfold _iter_indices.
  destruct (permutation rng (nrows X)) as [[perm rng']|] eqn:Ep; cbn [bind fst];
    [|discriminate].
  intro H. injection H as <-.
  exists n_train, n_test, rng, perm, rng'.
  repeat split; assumption.
Qed.


(** * The dataset splitter *)

(** C5: with the seed 42 the split is a function of the dataset alone: two
    runs on the same [X] and [y] return the same four parts, whatever state
    the process-wide generator is in at the time of each run, and the call
    leaves that generator untouched; the same holds for cells 2 to 5 as a
    whole. *)
Theorem splitter_deterministic (X : DataFrame) (y : Series) (data : DataFrame)
    (g1 g2 : mt19937_state) :
  fst (train_test_split X y test_size (Some random_state) g1) =
  fst (train_test_split X y test_size (Some random_state) g2) /\
  snd (train_test_split X y test_size (Some random_state) g1) = g1 /\
  fst (notebook data g1) = fst (notebook data g2).
Proof.
  assert (forall X y,
            fst (train_test_split X y test_size (Some random_state) g1) =
            fst (train_test_split X y test_size (Some random_state) g2) /\
            snd (train_test_split X y test_size (Some random_state) g1) = g1) as Hsplit.
  { intros X0 y0. unfold train_test_split. cbn [check_random_state].
    match goal with
    | |- context [match ?o with Ok _ => _ | Raise _ => _ | OutOfFuel => _ end] =>
        destruct o as [[[[[X_train X_test] y_train] y_test] rng']| |]
    end; split; reflexivity. }
  split; [apply Hsplit|]. split; [apply Hsplit|].
  unfold notebook.
  destruct (fit_matrix data) as [[X0 y0]| |]; [apply Hsplit | reflexivity ..].
Qed.



(** * The generator and the split on known values *)

(** The first word of the generator seeded with 0, and the permutations of
    five and of ten positions drawn by the generator seeded with 42. *)
Example mt19937_first_word : fst (mt19937_next (mt19937_seed 0)) = 2357136044%Z.
Proof. vm_compute; reflexivity. Qed.

Example permutation_42_five :
  option_map fst (permutation (mt19937_seed 42) 5) = Some [1; 4; 2; 0; 3].
Proof. vm_compute; reflexivity. Qed.

Example permutation_42_ten :
  option_map fst (permutation (mt19937_seed 42) 10) =
  Some [8; 1; 5; 0; 7; 2; 9; 4; 3; 6].
Proof. vm_compute; reflexivity. Qed.

(** Cells 2 to 5 on ten complete records: the labels of the two parts. *)
Example notebook_ten_records :
  match fst (notebook ten_records some_global) with
  | Ok (X_train, X_test, _, _) =>
      index X_train = [5; 0; 7; 2; 9; 4; 3; 6] /\ index X_test = [8; 1]
  | _ => False
  end.
Proof. vm_compute. split; reflexivity. Qed.

(** Without a seed the split follows the process-wide generator: two of its
    states give two different evaluation parts. *)
Example unseeded_split_follows_global :
  fst (train_test_split (fit_X ten_records) (fit_y ten_records) test_size None some_global)
  <> fst (train_test_split (fit_X ten_records) (fit_y ten_records) test_size None other_global).
Proof. vm_compute. discriminate. Qed.


(** * Beyond the claims: which errors cells 2 to 4 raise *)






(** * Beyond the claims: the shape of the frames *)

Lemma assign_labels_In (key k : string) (s : Series) cols :
  In k (map fst (assign key s cols)) -> k = key \/ In k (map fst cols).
Proof.
  induction cols as [|[k0 c] rest IH]; simpl.
  - intros [H|[]]. now left.
  - destruct (String.eqb k0 key) eqn:E; simpl; intros [H|H]; auto.
    destruct (IH H); auto.
Qed.

Lemma assign_NoDup (key : string) (s : Series) cols :
  NoDup (map fst cols) -> NoDup (map fst (assign key s cols)).
Proof.
  induction cols as [|[k0 c] rest IH]; simpl; intro ND.
  - constructor; [easy | constructor].
  - inversion ND as [|? ? Hk ND']; subst.
    destruct (String.eqb k0 key) eqn:E; simpl; [assumption|].
    constructor; [|now apply IH].
    intro H. apply assign_labels_In in H. destruct H as [->|H]; [|contradiction].
    now rewrite String.eqb_refl in E.
Qed.

Lemma assign_lengths (n : nat) (key : string) (s : Series) cols :
  List.length s = n ->
  Forall (fun c => List.length (snd c) = n) cols ->
  Forall (fun c => List.length (snd c) = n) (assign key s cols).
Proof.
  intros Hs. induction cols as [|[k0 c] rest IH]; simpl; intro F.
  - now constructor.
  - inversion F; subst.
    destruct (String.eqb k0 key); constructor; auto.
Qed.

Lemma setitem_well_formed (df : DataFrame) (key : string) (s : Series) :
  well_formed df -> List.length s = nrows df -> well_formed (setitem df key s).
Proof.
  intros (ND & NDl & WF) Hs. unfold well_formed, setitem, column_labels, nrows.
  cbn [index columns]. repeat split.
  - assumption.
  - now apply assign_NoDup.
  - now apply assign_lengths.
Qed.

Lemma column_length (df : DataFrame) (key : string) (s : Series) :
  well_formed df -> lookup key (columns df) = Some s -> List.length s = nrows df.
Proof.
  intros (_ & _ & WF) Hs. rewrite Forall_forall in WF.
  apply (WF _ (lookup_In _ _ _ Hs)).
Qed.

Lemma load_and_prepare_data_well_formed (data data' : DataFrame) :
  well_formed data -> load_and_prepare_data data = Ok data' -> well_formed data'.
Proof.
  intros WF H.
  destruct (load_and_prepare_data_inv _ _ H) as (u & p & Hu & Hp & ->).
  apply getitem_Ok in Hu, Hp.
  assert (List.length (target_expr u p) = nrows data) as L1.
  { unfold target_expr, add_series, scalar_mul, scalar_div.
    rewrite length_map, length_combine, !length_map.
    rewrite (column_length _ _ _ WF Hu), (column_length _ _ _ WF Hp).
    apply Nat.min_id. }
  apply setitem_well_formed.
  - now apply setitem_well_formed.
  - unfold mul_scalar. now rewrite length_map.
Qed.

Lemma feature_engineering_well_formed (data svm_data : DataFrame) :
  well_formed data -> feature_engineering data = Ok svm_data -> well_formed svm_data.
Proof.
  intros WF H. pose proof WF as (ND & _ & _).
  destruct (feature_engineering_Ok _ _ H) as (Hi & Hl & Hf & t & Ht & Ht').
  unfold well_formed. rewrite Hl. unfold nrows. rewrite Hi.
  split; [assumption|]. split; [apply column_names_NoDup|].
  apply Forall_forall. intros [k s] Hin. cbn [snd].
  assert (lookup k (columns svm_data) = Some s) as Hs.
  { apply In_lookup; [|assumption].
    fold (column_labels svm_data). rewrite Hl. apply column_names_NoDup. }
  assert (In k column_names) as Hk.
  { rewrite <- Hl. change k with (fst (k, s)). now apply in_map. }
  destruct (String.eqb k "Target") eqn:Ek.
  - apply String.eqb_eq in Ek. subst k.
    assert (s = t) as -> by congruence.
    apply (column_length data "Target" t WF Ht).
  - apply String.eqb_neq in Ek.
    destruct (Hf k) as (s0 & Hs0 & Hs0'); [apply In_features; tauto|].
    assert (s = min_max s0) as -> by congruence.
    rewrite min_max_length. apply (column_length data k s0 WF Hs0).
Qed.

Lemma select_incl {A : Type} (mask : list bool) (l : list A) (x : A) :
  In x (select mask l) -> In x l.
Proof.
  revert l. induction mask as [|b m IH]; intros [|a l]; simpl; try easy.
  - now destruct b.
  - destruct b; simpl; intros H; [destruct H as [H|H]|]; auto.
Qed.

Lemma select_NoDup {A : Type} (mask : list bool) (l : list A) :
  NoDup l -> NoDup (select mask l).
Proof.
  revert l. induction mask as [|b m IH]; intros [|a l] ND; simpl;
    try constructor.
  - destruct b; constructor.
  - inversion ND as [|? ? Ha ND']; subst.
    destruct b; [constructor|]; auto.
    intro H. apply Ha. now apply select_incl in H.
Qed.

Lemma filter_length_le {A : Type} (f : A -> bool) (l : list A) :
  List.length (filter f l) <= List.length l.
Proof.
  induction l as [|a l IH]; simpl; [lia|]. destruct (f a); simpl; lia.
Qed.

Lemma fit_matrix_well_formed (data X : DataFrame) (y : Series) :
  well_formed data ->
  fit_matrix data = Ok (X, y) ->
  well_formed X /\
  column_labels X = features /\
  List.length y = nrows X /\
  nrows X <= nrows data /\
  exists keep,
    List.length keep = nrows data /\
    index X = select keep (index data) /\
    nrows X = List.length (filter (fun b => b) keep).
Proof.
  intros WF HF.
  destruct (fit_matrix_inv _ _ _ HF) as (data' & svm_data & H2 & H3 & H4).
  pose proof (load_and_prepare_data_well_formed _ _ WF H2) as WF2.
  pose proof (feature_engineering_well_formed _ _ WF2 H3) as WF3.
  destruct (load_and_prepare_data_frame _ _ H2) as (Hi2 & _ & _).
  destruct (feature_engineering_Ok _ _ H3) as (Hi3 & _ & _ & _).
  destruct (prepare_features_and_target_Ok _ _ _ H4) as (HiX & Hl & Hf & t & Ht & Ey).
  pose proof WF3 as (ND3 & _ & _).
  assert (forall k s, lookup k (columns svm_data) = Some s ->
            List.length (select (notna_mask svm_data) s) =
            List.length (filter (fun b => b) (notna_mask svm_data))) as Hlen.
  { intros k s Hs. apply select_length.
    now rewrite notna_mask_length, (column_length _ _ _ WF3 Hs). }
  assert (nrows X = List.length (filter (fun b => b) (notna_mask svm_data))) as HnX.
  { unfold nrows. rewrite HiX. apply select_length.
    now rewrite notna_mask_length. }
  assert (nrows svm_data = nrows data) as Hn
      by (unfold nrows; now rewrite Hi3, Hi2).
  split; [|split; [exact Hl | split; [|split]]].
  - unfold well_formed. rewrite Hl, HiX. split; [now apply select_NoDup|].
    split; [apply features_NoDup|].
    apply Forall_forall. intros [k s] Hin. cbn [snd].
    assert (lookup k (columns X) = Some s) as Hs.
    { apply In_lookup; [|assumption].
      fold (column_labels X). rewrite Hl. apply features_NoDup. }
    assert (In k features) as Hk.
    { rewrite <- Hl. change k with (fst (k, s)). now apply in_map. }
    destruct (Hf k Hk) as (s0 & Hs0 & Hs0').
    assert (s = select (notna_mask svm_data) s0) as -> by congruence.
    rewrite (Hlen k s0 Hs0). symmetry. exact HnX.
  - subst y. rewrite (Hlen _ _ Ht). symmetry. exact HnX.
  - rewrite HnX, <- Hn, <- (notna_mask_length svm_data). apply filter_length_le.
  - exists (notna_mask svm_data). split; [|split].
    + now rewrite notna_mask_length.
    + now rewrite HiX, Hi3, Hi2.
    + exact HnX.
Qed.

(** Cells 2 to 4 keep a well-formed table well formed: the fit matrix has
    the eighteen feature columns, in the order of [features], every column
    as long as the index; [y] has one entry per row of [X]; and the rows
    of [X] are rows of the table, in their order and under their labels. *)
Theorem fit_matrix_shape (data X : DataFrame) (y : Series) :
  well_formed data ->
  fit_matrix data = Ok (X, y) ->
  well_formed X /\
  column_labels X = features /\
  List.length y = nrows X /\
  nrows X <= nrows data /\
  exists keep,
    List.length keep = nrows data /\
    index X = select keep (index data) /\
    nrows X = List.length (filter (fun b => b) keep).
Proof.
  intros WF HF.
  destruct (fit_matrix_well_formed data X y WF HF) as (W & L & Ly & Le & keep & K).
  split; [exact W|]. split; [exact L|]. split; [exact Ly|]. split; [exact Le|].
  exists keep. exact K.
Qed.

Lemma fit_matrix_shape_witness :
  well_formed (fit_X five_records) /\
  List.length (fit_y five_records) = nrows (fit_X five_records) /\
  index (fit_X five_records) = [0; 1; 3; 4].
Proof.
  destruct (fit_matrix_shape five_records (fit_X five_records) (fit_y five_records))
    as (W & _ & L & _).
  - repeat split.
    + vm_compute. distinct_entries.
    + vm_compute. distinct_entries.
    + vm_compute. repeat (constructor; [reflexivity|]). constructor.
  - vm_compute; reflexivity.
  - split; [exact W|]. split; [exact L|]. vm_compute; reflexivity.
Defined.

(** * Beyond the claims: targets and surviving records *)

(** The targets of the fit matrix come from the raw columns: cell 2 runs
    before cell 3, so [y] is the formula applied to uptake_vol and
    pore_volume as read, while [X] holds the rescaled versions of these two
    columns; one mask filters them all. *)
Theorem target_from_raw_columns (data X : DataFrame) (y : Series) :
  fit_matrix data = Ok (X, y) ->
  exists u p keep,
    getitem data uptake_vol = Ok u /\
    getitem data pore_volume = Ok p /\
    index X = select keep (index data) /\
    y = select keep (mul_scalar (target_expr u p) two) /\
    getitem X uptake_vol = Ok (select keep (min_max u)) /\
    getitem X pore_volume = Ok (select keep (min_max p)).
Proof.
  intro HF.
  destruct (fit_matrix_inv _ _ _ HF) as (data' & svm_data & H2 & H3 & H4).
  destruct (load_and_prepare_data_inv _ _ H2) as (u & p & Hu & Hp & Ed).
  destruct (load_and_prepare_data_frame _ _ H2) as (Hi2 & Hk2 & _).
  destruct (feature_engineering_Ok _ _ H3) as (Hi3 & _ & Hf3 & t & Ht & Ht').
  destruct (prepare_features_and_target_Ok _ _ _ H4) as (HiX & _ & Hf4 & t' & Ht'' & Ey).
  assert (In uptake_vol features) as Fu by (vm_compute; tauto).
  assert (In pore_volume features) as Fp by (vm_compute; tauto).
  assert (forall k s, In k features -> getitem data k = Ok s ->
            getitem X k = Ok (select (notna_mask svm_data) (min_max s))) as Hcol.
  { intros k s Hk Hs. apply getitem_Ok in Hs. apply getitem_Ok.
    destruct (Hf3 k Hk) as (s0 & Hs0 & Hs0').
    rewrite Hk2 in Hs0 by (apply In_features in Hk; tauto).
    assert (s0 = s) as -> by congruence.
    destruct (Hf4 k Hk) as (s1 & Hs1 & Hs1').
    rewrite Hs0' in Hs1. injection Hs1 as <-. exact Hs1'. }
  exists u, p, (notna_mask svm_data).
  split; [assumption|]. split; [assumption|].
  split; [now rewrite HiX, Hi3, Hi2|].
  split; [|split; now apply Hcol].
  subst y. f_equal.
  rewrite Ed in Ht. cbn [setitem columns] in Ht.
  rewrite lookup_assign_eq in Ht. congruence.
Qed.

Lemma target_from_raw_columns_witness :
  exists keep,
    fit_y five_records =
    select keep [Finite (33 # 4); Finite (129 # 8); NaN; Finite (513 # 16); Finite (801 # 20)].
Proof.
  destruct (target_from_raw_columns five_records (fit_X five_records) (fit_y five_records))
    as (u & p & keep & Hu & Hp & _ & Hy & _); [vm_compute; reflexivity|].
  exists keep. rewrite Hy. f_equal.
  vm_compute in Hu, Hp. injection Hu as <-. injection Hp as <-.
  vm_compute; reflexivity.
Defined.

Lemma nth_min_max (col : Series) (i : nat) :
  nth i (min_max col) NaN =
  fdiv (fsub (nth i col NaN) (series_min col))
       (fsub (series_max col) (series_min col)).
Proof.
  destruct (nth_error col i) as [x|] eqn:E.
  - rewrite (nth_error_nth _ _ _ E).
    apply nth_error_nth. now rewrite min_max_nth, E.
  - apply nth_error_None in E.
    rewrite !nth_overflow; [reflexivity | assumption |].
    now rewrite min_max_length.
Qed.

Lemma nth_target (u p : Series) (i : nat) :
  nth i (mul_scalar (target_expr u p) two) NaN =
  fmul (fadd (fmul half (nth i u NaN)) (fmul half (fdiv one (nth i p NaN)))) two.
Proof.
  destruct (nth_error u i) as [ui|] eqn:Eu.
  - destruct (nth_error p i) as [pi|] eqn:Ep.
    + rewrite (nth_error_nth _ _ _ Eu), (nth_error_nth _ _ _ Ep).
      apply nth_error_nth. now apply target_expr_nth.
    + apply nth_error_None in Ep.
      rewrite (nth_overflow p _ Ep).
      rewrite target_of_missing_input by now right.
      apply nth_overflow. rewrite target_expr_length. lia.
  - apply nth_error_None in Eu.
    rewrite (nth_overflow u _ Eu).
    rewrite target_of_missing_input by now left.
    apply nth_overflow. rewrite target_expr_length. lia.
Qed.

Lemma nth_In_notna (col : Series) (i : nat) :
  nth i col NaN <> NaN -> In (nth i col NaN) col.
Proof.
  intro H. apply nth_In.
  destruct (Nat.lt_ge_cases i (List.length col)) as [L|L]; [assumption|].
  exfalso. apply H. now apply nth_overflow.
Qed.

(** When no feature column is constant, the records that reach the fit
    matrix are exactly those that have a value in every one of the eighteen
    feature columns. *)
Theorem complete_records_survive (data X : DataFrame) (y : Series) :
  NoDup (index data) ->
  fit_matrix data = Ok (X, y) ->
  (forall k, In k features ->
     exists col m M,
       getitem data k = Ok col /\
       series_min col = Finite m /\ series_max col = Finite M /\ (m < M)%Q) ->
  forall i r,
    nth_error (index data) i = Some r ->
    (In r (index X) <->
     forall k col, In k features -> getitem data k = Ok col -> nth i col NaN <> NaN).
Proof.
  intros ND HF Hnd i r Hr.
  destruct (fit_matrix_inv _ _ _ HF) as (data' & svm_data & H2 & H3 & H4).
  destruct (load_and_prepare_data_inv _ _ H2) as (u & p & Hu & Hp & Ed).
  destruct (load_and_prepare_data_frame _ _ H2) as (Hi2 & Hk2 & _).
  destruct (feature_engineering_Ok _ _ H3) as (Hi3 & Hl3 & Hf3 & t & Ht & Ht').
  destruct (prepare_features_and_target_Ok _ _ _ H4) as (HiX & _).
  assert (t = mul_scalar (target_expr u p) two) as Et.
  { rewrite Ed in Ht. cbn [setitem columns] in Ht.
    rewrite lookup_assign_eq in Ht. congruence. }
  assert (forall k col, In k features -> getitem data k = Ok col ->
            lookup k (columns svm_data) = Some (min_max col)) as Hnorm.
  { intros k col Hk Hcol. apply getitem_Ok in Hcol.
    destruct (Hf3 k Hk) as (s & Hs & Hs').
    rewrite Hk2 in Hs by (apply In_features in Hk; tauto). congruence. }
  assert (nth_error (index svm_data) i = Some r) as Hr' by now rewrite Hi3, Hi2.
  assert (forall k col, In k features -> getitem data k = Ok col ->
            nth i col NaN <> NaN -> exists a, nth i col NaN = Finite a) as Hfin.
  { intros k col Hk Hcol Hx.
    destruct (Hnd k Hk) as (col0 & m & M & Hcol0 & Hm & HM & _).
    assert (col0 = col) as -> by congruence.
    destruct (column_between col m M _ Hm HM (nth_In_notna _ _ Hx) Hx) as (a & Ea & _).
    now exists a. }
  rewrite HiX. split.
  - intros Hin k col Hk Hcol Hx.
    unfold notna_mask in Hin.
    destruct (select_In _ _ _ _ _ Hin) as (j & Hj & Hn & Htrue). cbn in Htrue.
    assert (i = j) as <-.
    { apply (proj1 (NoDup_nth_error (index svm_data))).
      - now rewrite Hi3, Hi2.
      - apply nth_error_Some. congruence.
      - congruence. }
    assert (row_notna svm_data i = false); [|congruence].
    apply (row_notna_false svm_data k (min_max col)); [now apply Hnorm|].
    rewrite nth_min_max, Hx. reflexivity.
  - intro Hall. apply kept_label with (i := i); [assumption|].
    unfold row_notna. apply forallb_forall.
    intros [k s] Hin. cbn [snd]. apply notna_true.
    assert (lookup k (columns svm_data) = Some s) as Hs.
    { apply In_lookup; [|assumption].
      fold (column_labels svm_data). rewrite Hl3. apply column_names_NoDup. }
    assert (In k column_names) as Hk.
    { rewrite <- Hl3. change k with (fst (k, s)). now apply in_map. }
    destruct (String.eqb k "Target") eqn:Ek.
    + apply String.eqb_eq in Ek. subst k.
      assert (s = t) as -> by congruence. subst t.
      assert (In uptake_vol features) as Fu by (vm_compute; tauto).
      assert (In pore_volume features) as Fp by (vm_compute; tauto).
      destruct (Hfin _ _ Fu Hu (Hall _ _ Fu Hu)) as (a & Ea).
      destruct (Hfin _ _ Fp Hp (Hall _ _ Fp Hp)) as (b & Eb).
      rewrite nth_target, Ea, Eb. apply target_notna.
    + apply String.eqb_neq in Ek.
      assert (In k features) as Hkf by (apply In_features; tauto).
      destruct (Hnd k Hkf) as (col & m & M & Hcol & Hm & HM & Hlt).
      assert (s = min_max col) as -> by (rewrite (Hnorm k col Hkf Hcol) in Hs; congruence).
      destruct (Hfin _ _ Hkf Hcol (Hall _ _ Hkf Hcol)) as (a & Ea).
      rewrite nth_min_max, Ea, Hm, HM, rescale_finite; [discriminate|].
      intro; lra.
Qed.

Lemma complete_records_survive_witness :
  In 0 (index (fit_X five_records)) /\ ~ In 2 (index (fit_X five_records)).
Proof.
  pose proof (complete_records_survive five_records (fit_X five_records)
                (fit_y five_records)) as H.
  assert (NoDup (index five_records)) as ND by (vm_compute; distinct_entries).
  assert (fit_matrix five_records = Ok (fit_X five_records, fit_y five_records)) as HF
      by (vm_compute; reflexivity).
  assert (forall k, In k features ->
            exists col m M,
              getitem five_records k = Ok col /\
              series_min col = Finite m /\ series_max col = Finite M /\ (m < M)%Q) as Hnd.
  { intros k Hk. vm_compute in Hk.
    repeat (destruct Hk as [<-|Hk];
            [eexists _, _, _; repeat split; vm_compute; reflexivity|]).
    destruct Hk. }
  specialize (H ND HF Hnd). split.
  - apply (H 0 0 eq_refl). intros k col Hk Hcol. vm_compute in Hk.
    repeat (destruct Hk as [<-|Hk];
            [vm_compute in Hcol; injection Hcol as <-; discriminate|]).
    destruct Hk.
  - intro Hin. apply (proj1 (H 2 2 eq_refl) Hin pore_volume
                        [Finite 4; Finite 8; NaN; Finite 16; Finite 20]).
    + vm_compute; tauto.
    + vm_compute; reflexivity.
    + reflexivity.
Defined.

(** * Beyond the claims: the split *)

Lemma _validate_shuffle_split_small (n : nat) :
  n < 2 ->
  _validate_shuffle_split n test_size =
  Raise (ValueError "the resulting train set will be empty").
Proof.
  intro H. destruct n as [|[|n]]; [reflexivity | reflexivity | lia].
Qed.

Lemma _validate_shuffle_split_Raise (n : nat) (e : exn) :
  _validate_shuffle_split n test_size = Raise e ->
  e = ValueError "the resulting train set will be empty" /\ n < 2.
Proof.
  rewrite _validate_shuffle_split_fifth. cbv zeta.
  pose proof (ceil_fifth n) as Ht.
  destruct (n - _ =? 0) eqn:E; [|discriminate].
  apply Nat.eqb_eq in E. intro H. injection H as <-. split; [reflexivity | lia].
Qed.

(** With fewer than two complete records the run ends in cell 5 with
    [ValueError]; and this is the only exception cell 5 raises on the fit
    matrix of a well-formed table. *)
Theorem notebook_needs_two_records (data X : DataFrame) (y : Series)
    (global : mt19937_state) :
  well_formed data ->
  fit_matrix data = Ok (X, y) ->
  (nrows X < 2 ->
   notebook data global =
     (Raise (ValueError "the resulting train set will be empty"), global)) /\
  (forall e, fst (notebook data global) = Raise e ->
     e = ValueError "the resulting train set will be empty" /\ nrows X < 2).
Proof.
  intros WF HF.
  destruct (fit_matrix_well_formed data X y WF HF) as (_ & _ & Ly & _).
  unfold notebook. rewrite HF. unfold train_test_split.
  rewrite Ly, Nat.eqb_refl. cbn [negb check_random_state].
  split.
  - intro Hn. now rewrite (_validate_shuffle_split_small _ Hn).
  - intro e.
    destruct (_validate_shuffle_split (nrows X) test_size) as [[n_train n_test]|e0|] eqn:Ev;
      cbn [bind fst snd].
    + replace (RandomState random_state) with (Ok (mt19937_seed random_state))
        by reflexivity.
      cbn [bind]. unfold _iter_indices.
      destruct (permutation (mt19937_seed random_state) (nrows X)) as [[perm rng']|];
        cbn [bind fst]; discriminate.
    + intro H. injection H as <-. now apply _validate_shuffle_split_Raise.
    + discriminate.
Qed.

Lemma notebook_needs_two_records_witness :
  notebook right_angle_records some_global =
  (Raise (ValueError "the resulting train set will be empty"), some_global).
Proof.
  apply (notebook_needs_two_records right_angle_records
           (fit_X right_angle_records) (fit_y right_angle_records) some_global).
  - repeat split.
    + vm_compute. distinct_entries.
    + vm_compute. distinct_entries.
    + vm_compute. repeat (constructor; [reflexivity|]). constructor.
  - vm_compute; reflexivity.
  - vm_compute; lia.
Defined.

(** Neither part of a split is empty, and the evaluation part is never the
    larger one. *)
Theorem split_parts_nonempty (X X_train X_test : DataFrame)
    (y y_train y_test : Series) (global : mt19937_state) :
  fst (train_test_split X y test_size (Some random_state) global) =
    Ok (X_train, X_test, y_train, y_test) ->
  1 <= nrows X_test /\ nrows X_test <= nrows X_train /\ 2 <= nrows X.
Proof.
  intro H.
  destruct (train_test_split_Ok _ _ _ _ _ H)
    as (n_train & n_test & rng & perm & rng' & Hl & Hv & _ & Hp & E).
  injection E as -> -> -> ->.
  destruct (_validate_shuffle_split_Ok _ _ _ Hv) as (Hfifth & Hsum & Hpos).
  pose proof (Permutation_length (permutation_Permutation _ _ _ _ Hp)) as Hlen.
  rewrite length_seq in Hlen.
  unfold nrows at 1 2 3. cbn [iloc index].
  rewrite !take_length, !length_firstn, length_skipn.
  lia.
Qed.

Lemma split_parts_nonempty_witness :
  exists X_train X_test y_train y_test,
    fst (train_test_split (fit_X five_records) (fit_y five_records) test_size
           (Some random_state) some_global) = Ok (X_train, X_test, y_train, y_test) /\
    1 <= nrows X_test <= nrows X_train.
Proof.
  assert (exists parts,
            fst (train_test_split (fit_X five_records) (fit_y five_records) test_size
                   (Some random_state) some_global) = Ok parts)
    as [[[[X_train X_test] y_train] y_test] E]
      by (eexists; vm_compute; reflexivity).
  exists X_train, X_test, y_train, y_test. split; [exact E|].
  destruct (split_parts_nonempty _ _ _ _ _ _ _ E) as (H1 & H2 & _).
  split; assumption.
Defined.

Lemma row_of_iloc (X : DataFrame) (y : Series) (positions : list nat) (k i : nat) :
  List.length y = nrows X ->
  nth_error positions k = Some i ->
  i < nrows X ->
  row_of X y i <> None /\
  row_of (iloc X positions) (take NaN positions y) k = row_of X y i.
Proof.
  intros Hy Hk Hi. unfold row_of, iloc, take. cbn [index columns].
  rewrite !nth_error_map, Hk. cbn [option_map].
  rewrite (nth_error_nth' (index X) 0) by exact Hi.
  rewrite (nth_error_nth' y NaN) by (rewrite Hy; exact Hi).
  split; [discriminate|].
  f_equal. f_equal. f_equal.
  rewrite map_map. apply map_ext. intros [c s]. cbn [snd].
  apply nth_error_nth. now rewrite nth_error_map, Hk.
Qed.

(** Every record of either part of the split is a record of the dataset,
    with its label, its feature values and its target; and every record of
    the dataset goes to exactly one position of one part. *)
Theorem split_keeps_records (X X_train X_test : DataFrame)
    (y y_train y_test : Series) (global : mt19937_state) :
  fst (train_test_split X y test_size (Some random_state) global) =
    Ok (X_train, X_test, y_train, y_test) ->
  exists train test,
    Permutation (test ++ train) (seq 0 (nrows X)) /\
    List.length train = nrows X_train /\
    List.length test = nrows X_test /\
    (forall k i, nth_error train k = Some i ->
       row_of X y i <> None /\ row_of X_train y_train k = row_of X y i) /\
    (forall k i, nth_error test k = Some i ->
       row_of X y i <> None /\ row_of X_test y_test k = row_of X y i).
Proof.
  intro H.
  destruct (train_test_split_Ok _ _ _ _ _ H)
    as (n_train & n_test & rng & perm & rng' & Hl & Hv & _ & Hp & E).
  injection E as -> -> -> ->.
  destruct (_validate_shuffle_split_Ok _ _ _ Hv) as (_ & Hsum & _).
  pose proof (permutation_Permutation _ _ _ _ Hp) as HP.
  assert (List.length perm = nrows X) as Hlen
      by (rewrite (Permutation_length HP); apply length_seq).
  assert (firstn n_train (skipn n_test perm) = skipn n_test perm) as Etrain.
  { apply firstn_all2. rewrite length_skipn. lia. }
  rewrite Etrain.
  assert (forall i, In i perm -> i < nrows X) as Hin.
  { intros i Hi. apply (Permutation_in _ HP) in Hi. apply in_seq in Hi. lia. }
  exists (skipn n_test perm), (firstn n_test perm).
  split; [now rewrite firstn_skipn|].
  split; [unfold nrows, iloc; cbn [index]; now rewrite take_length|].
  split; [unfold nrows, iloc; cbn [index]; now rewrite take_length|].
  split; intros k i Hk; apply row_of_iloc; auto; apply Hin;
    rewrite <- (firstn_skipn n_test perm); apply in_or_app;
    [right | left]; eapply nth_error_In; eassumption.
Qed.

Lemma split_keeps_records_witness :
  exists X_train X_test y_train y_test i,
    fst (train_test_split (fit_X five_records) (fit_y five_records) test_size
           (Some random_state) some_global) = Ok (X_train, X_test, y_train, y_test) /\
    row_of (fit_X five_records) (fit_y five_records) i <> None /\
    row_of X_test y_test 0 = row_of (fit_X five_records) (fit_y five_records) i.
Proof.
  assert (exists parts,
            fst (train_test_split (fit_X five_records) (fit_y five_records) test_size
                   (Some random_state) some_global) = Ok parts)
    as [[[[X_train X_test] y_train] y_test] E]
      by (eexists; vm_compute; reflexivity).
  destruct (split_keeps_records _ _ _ _ _ _ _ E)
    as (train & test & _ & _ & Lt & _ & Htest).
  assert (nrows X_test = 1) as N.
  { vm_compute in E. injection E as _ <- _ _. reflexivity. }
  destruct test as [|i test]; [rewrite N in Lt; discriminate Lt|].
  exists X_train, X_test, y_train, y_test, i.
  split; [exact E|]. apply (Htest 0 i eq_refl).
Defined.

(** [RandomState.permutation(n)] returns each of [0 .. n-1] exactly once,
    from whatever state the generator starts. *)
Theorem permutation_is_permutation (state state' : mt19937_state) (n : nat)
    (perm : list nat) :
  permutation state n = Some (perm, state') ->
  Permutation perm (seq 0 n) /\
  NoDup perm /\
  List.length perm = n /\
  (forall i, In i perm <-> i < n).
Proof.
  intro H. pose proof (permutation_Permutation _ _ _ _ H) as HP.
  split; [exact HP|]. split; [|split].
  - apply (Permutation_NoDup (Permutation_sym HP)). apply seq_NoDup.
  - rewrite (Permutation_length HP). apply length_seq.
  - intro i. split; intro Hi.
    + apply (Permutation_in _ HP) in Hi. apply in_seq in Hi. lia.
    + apply (Permutation_in _ (Permutation_sym HP)). apply in_seq. lia.
Qed.

Lemma permutation_is_permutation_witness :
  NoDup [8; 1; 5; 0; 7; 2; 9; 4; 3; 6] /\
  (forall i, In i [8; 1; 5; 0; 7; 2; 9; 4; 3; 6] <-> i < 10).
Proof.
  destruct (permutation (mt19937_seed 42) 10) as [[perm state']|] eqn:E;
    [|vm_compute in E; discriminate E].
  destruct (permutation_is_permutation _ _ _ _ E) as (_ & ND & _ & Hin).
  vm_compute in E. injection E as <- _. split; assumption.
Defined.

(** * Beyond the claims: cell 6 *)

Lemma check_vector_cases (y : list float64) :
  (check_vector y = Ok tt /\ forallb isfinite y = true /\ 0 < List.length y) \/
  (exists msg, check_vector y = Raise (ValueError msg)).
Proof.
  unfold check_vector.
  destruct (forallb isfinite y); cbn [negb]; [|right; now eexists].
  destruct (List.length y) as [|n] eqn:E; cbn [Nat.eqb]; [right; now eexists|].
  left. repeat split. lia.
Qed.

Lemma check_matrix_cases (X : DataFrame) :
  check_matrix X = Ok tt \/ (exists msg, check_matrix X = Raise (ValueError msg)).
Proof.
  unfold check_matrix.
  destruct (forallb (fun c => forallb isfinite (snd c)) (columns X));
    cbn [negb]; [|right; now eexists].
  destruct (nrows X =? 0); [right; now eexists|].
  destruct (List.length (columns X) =? 0); [right; now eexists | now left].
Qed.

Lemma check_consistent_length_cases (n m : nat) :
  (check_consistent_length n m = Ok tt /\ n = m) \/
  (exists msg, check_consistent_length n m = Raise (ValueError msg)).
Proof.
  unfold check_consistent_length.
  destruct (Nat.eqb_spec n m); [now left | right; now eexists].
Qed.

Lemma mean_squared_error_cases (y_true y_pred : list float64) :
  match mean_squared_error y_true y_pred with
  | Ok mse =>
      List.length y_true = List.length y_pred /\
      forallb isfinite y_true = true /\ forallb isfinite y_pred = true /\
      0 < List.length y_true /\
      mse = fdiv (fsum (map (fun p => fmul (fsub (fst p) (snd p)) (fsub (fst p) (snd p)))
                          (combine y_true y_pred)))
              (Finite (inject_Z (Z.of_nat (List.length y_true))))
  | Raise e => exists msg, e = ValueError msg
  | OutOfFuel => False
  end.
Proof.
  unfold mean_squared_error.
  destruct (check_consistent_length_cases (List.length y_true) (List.length y_pred))
    as [(-> & El)|(msg & ->)]; cbn [bind]; [|now eexists].
  destruct (check_vector_cases y_true) as [(-> & Ft & Lt)|(msg & ->)];
    cbn [bind]; [|now eexists].
  destruct (check_vector_cases y_pred) as [(-> & Fp & _)|(msg & ->)];
    cbn [bind]; [|now eexists].
  repeat split; assumption.
Qed.

(** What cell 6 can do: report an error computed from finite targets, or
    raise [ValueError]. *)
Lemma linear_regression_model_cases (lstsq : solver)
    (X_train X_test : DataFrame) (y_train y_test : Series) :
  match linear_regression_model lstsq (X_train, X_test, y_train, y_test) with
  | Ok mse =>
      check_matrix X_train = Ok tt /\ check_matrix X_test = Ok tt /\
      forallb isfinite y_train = true /\
      exists y_pred, mean_squared_error y_test y_pred = Ok mse
  | Raise e => exists msg, e = ValueError msg
  | OutOfFuel => False
  end.
Proof.
  unfold linear_regression_model, fit.
  destruct (check_matrix_cases X_train) as [Etrain|(msg & ->)];
    [rewrite Etrain|]; cbn [bind]; [|now eexists].
  destruct (check_vector_cases y_train) as [(-> & Ft & _)|(msg & ->)];
    cbn [bind]; [|now eexists].
  destruct (check_consistent_length_cases (nrows X_train) (List.length y_train))
    as [(-> & _)|(msg & ->)]; cbn [bind]; [|now eexists].
  unfold predict.
  destruct (check_matrix_cases X_test) as [Etest|(msg & ->)];
    [rewrite Etest|]; cbn [bind]; [|now eexists].
  match goal with
  | |- context [if ?c then _ else _] => destruct c
  end; cbn [bind]; [now eexists|].
  match goal with
  | |- context [mean_squared_error ?a ?b] =>
      pose proof (mean_squared_error_cases a b) as HM;
      destruct (mean_squared_error a b) as [mse|e|] eqn:EM
  end; auto.
  repeat (split; [reflexivity || assumption|]). eexists. exact EM.
Qed.

Lemma train_test_split_Raise (X : DataFrame) (y : Series)
    (global : mt19937_state) (e : exn) :
  fst (train_test_split X y test_size (Some random_state) global) = Raise e ->
  exists msg, e = ValueError msg.
Proof.
  unfold train_test_split. cbn [check_random_state].
  destruct (List.length y =? nrows X); cbn [negb].
  - destruct (_validate_shuffle_split (nrows X) test_size) as [[n_train n_test]|e0|] eqn:Ev;
      cbn [bind fst snd].
    + replace (RandomState random_state) with (Ok (mt19937_seed random_state))
        by reflexivity.
      cbn [bind]. unfold _iter_indices.
      destruct (permutation (mt19937_seed random_state) (nrows X)) as [[perm rng']|];
        cbn [bind fst]; discriminate.
    + intro H. injection H as <-.
      destruct (_validate_shuffle_split_Raise _ _ Ev) as [-> _]. now eexists.
    + discriminate.
  - intro H. injection H as <-. now eexists.
Qed.

(** Every target of the dataset is a target of one of the two parts. *)
Lemma split_covers_targets (X X_train X_test : DataFrame)
    (y y_train y_test : Series) (global : mt19937_state) (v : float64) :
  fst (train_test_split X y test_size (Some random_state) global) =
    Ok (X_train, X_test, y_train, y_test) ->
  In v y -> In v y_train \/ In v y_test.
Proof.
  intros H Hv.
  destruct (train_test_split_Ok _ _ _ _ _ H)
    as (n_train & n_test & rng & perm & rng' & Hl & Hv' & _ & Hp & E).
  injection E as -> -> -> ->.
  destruct (_validate_shuffle_split_Ok _ _ _ Hv') as (_ & Hsum & _).
  pose proof (permutation_Permutation _ _ _ _ Hp) as HP.
  assert (List.length perm = nrows X) as Hlen
      by (rewrite (Permutation_length HP); apply length_seq).
  assert (firstn n_train (skipn n_test perm) = skipn n_test perm) as ->.
  { apply firstn_all2. rewrite length_skipn. lia. }
  destruct (In_nth y v NaN Hv) as (i & Hi & <-).
  assert (In i perm) as Hin.
  { apply (Permutation_in _ (Permutation_sym HP)). apply in_seq. lia. }
  rewrite <- (firstn_skipn n_test perm) in Hin. apply in_app_or in Hin.
  unfold take. destruct Hin as [Hin|Hin]; [right | left];
    apply (in_map (fun i => nth i y NaN)); assumption.
Qed.

Lemma forallb_isfinite_Inf (y : list float64) (s : bool) :
  forallb isfinite y = true -> ~ In (Inf s) y.
Proof.
  intros H Hin. rewrite forallb_forall in H. now apply H in Hin.
Qed.

(** A record with an infinite target in the fit matrix (as a zero pore
    volume produces) keeps cells 2 to 6 from reporting an error: whatever
    the solver, whichever part the record falls in, the run raises, and what
    it raises is [ValueError]. *)
Theorem infinite_target_ends_run (lstsq : solver) (data X : DataFrame)
    (y : Series) (s : bool) (global : mt19937_state) :
  fit_matrix data = Ok (X, y) ->
  In (Inf s) y ->
  (forall mse, notebook_mse lstsq data global <> Ok mse) /\
  (forall e, notebook_mse lstsq data global = Raise e -> exists msg, e = ValueError msg).
Proof.
  intros HF Hinf. unfold notebook_mse, notebook. rewrite HF.
  destruct (fst (train_test_split X y test_size (Some random_state) global))
    as [[[[X_train X_test] y_train] y_test]|e0|] eqn:Es; cbn [bind].
  - pose proof (linear_regression_model_cases lstsq X_train X_test y_train y_test) as HC.
    destruct (linear_regression_model lstsq (X_train, X_test, y_train, y_test))
      as [mse|e|].
    + exfalso. destruct HC as (_ & _ & Ftrain & y_pred & HM).
      pose proof (mean_squared_error_cases y_test y_pred) as HM'.
      rewrite HM in HM'. destruct HM' as (_ & Ftest & _).
      destruct (split_covers_targets _ _ _ _ _ _ _ _ Es Hinf) as [Hin|Hin].
      * exact (forallb_isfinite_Inf y_train s Ftrain Hin).
      * exact (forallb_isfinite_Inf y_test s Ftest Hin).
    + split; [discriminate|]. intros e' H. injection H as <-. exact HC.
    + destruct HC.
  - split; [discriminate|]. intros e' H. injection H as <-.
    now apply (train_test_split_Raise X y global).
  - split; discriminate.
Qed.

Lemma infinite_target_ends_run_witness :
  In (Inf false) (fit_y zero_pore_records) /\
  exists msg,
    notebook_mse flat_solver zero_pore_records some_global = Raise (ValueError msg).
Proof.
  assert (In (Inf false) (fit_y zero_pore_records)) as Hin by (vm_compute; tauto).
  split; [exact Hin|].
  destruct (infinite_target_ends_run flat_solver zero_pore_records
              (fit_X zero_pore_records) (fit_y zero_pore_records) false some_global)
    as [_ H]; [vm_compute; reflexivity | exact Hin |].
  assert (notebook_mse flat_solver zero_pore_records some_global =
          Raise (ValueError "Input contains NaN or infinity")) as E
      by (vm_compute; reflexivity).
  destruct (H _ E) as [msg Hm]. exists msg. rewrite E. f_equal. exact Hm.
Defined.

Lemma fsub_zero (a b : Q) :
  fsub (Finite a) (Finite b) = Finite 0 <-> (a == b)%Q.
Proof.
  cbn [fsub]. split.
  - intro H. injection H as H.
    assert (a - b == 0)%Q as H0
        by (rewrite <- (Qred_correct (a - b)), H; reflexivity).
    lra.
  - intro H. f_equal. change 0%Q with (Qred 0). apply Qred_complete. lra.
Qed.

Lemma Qsquare_nonneg (x : Q) : (0 <= x * x)%Q.
Proof.
  destruct (Qlt_le_dec x 0) as [H|H].
  - assert (x * x == (- x) * (- x))%Q as -> by ring.
    apply Qmult_le_0_compat; lra.
  - now apply Qmult_le_0_compat.
Qed.

Lemma squared_difference (a b : Q) :
  exists d : Q,
    fmul (fsub (Finite a) (Finite b)) (fsub (Finite a) (Finite b)) = Finite d /\
    (0 <= d)%Q /\ ((d == 0)%Q <-> (a == b)%Q).
Proof.
  cbn [fsub fmul]. eexists. split; [reflexivity|].
  rewrite !Qred_correct. split; [apply Qsquare_nonneg|]. split.
  - intro H. apply Qmult_integral in H. lra.
  - intro H. assert (a - b == 0)%Q as -> by lra. lra.
Qed.

(** The running sum of squared differences of two finite vectors of one
    length: it never decreases, and it stays where it started exactly when
    every difference is zero. *)
Lemma sum_squared_differences (y_true : list float64) :
  forall (y_pred : list float64) (a0 : Q),
    List.length y_true = List.length y_pred ->
    forallb isfinite y_true = true -> forallb isfinite y_pred = true ->
    exists q : Q,
      fold_left fadd
        (map (fun p => fmul (fsub (fst p) (snd p)) (fsub (fst p) (snd p)))
           (combine y_true y_pred)) (Finite a0) = Finite q /\
      (a0 <= q)%Q /\
      ((q == a0)%Q <-> Forall2 (fun t p => fsub t p = Finite 0) y_true y_pred).
Proof.
  induction y_true as [|t y_true IH]; intros [|p y_pred] a0 Hl Ft Fp;
    try discriminate Hl.
  - exists a0. cbn. split; [reflexivity|]. split; [lra|].
    split; [constructor | reflexivity].
  - cbn [forallb] in Ft, Fp.
    apply andb_true_iff in Ft as [Ht Ft]. apply andb_true_iff in Fp as [Hp Fp].
    destruct t as [a| |]; try discriminate Ht.
    destruct p as [b| |]; try discriminate Hp.
    injection Hl as Hl.
    destruct (squared_difference a b) as (d & Ed & Hd & Hz).
    cbn [combine map fold_left fst snd]. rewrite Ed. cbn [fadd].
    destruct (IH y_pred (Qred (a0 + d)) Hl Ft Fp) as (q & Eq & Hq & Hiff).
    rewrite Qred_correct in Hq, Hiff.
    exists q. split; [exact Eq|]. split; [lra|]. split.
    + intro H. constructor.
      * apply fsub_zero, Hz. lra.
      * apply Hiff. lra.
    + intro H. inversion H as [|? ? ? ? H1 H2]; subst.
      apply fsub_zero, Hz in H1. apply Hiff in H2. lra.
Qed.

(** [mean_squared_error], when it returns, returns a finite number that is
    not negative, and that is zero exactly when every prediction equals its
    target. *)
Theorem mean_squared_error_nonnegative (y_true y_pred : list float64)
    (mse : float64) :
  mean_squared_error y_true y_pred = Ok mse ->
  exists q : Q,
    mse = Finite q /\ (0 <= q)%Q /\
    ((q == 0)%Q <-> Forall2 (fun t p => fsub t p = Finite 0) y_true y_pred).
Proof.
  intro H. pose proof (mean_squared_error_cases y_true y_pred) as HC.
  rewrite H in HC. destruct HC as (Hl & Ft & Fp & Hn & ->).
  destruct (sum_squared_differences y_true y_pred 0 Hl Ft Fp) as (q & Eq & Hq & Hiff).
  unfold fsum. rewrite Eq. cbn [fdiv].
  set (n := inject_Z (Z.of_nat (List.length y_true))).
  assert (0 < n)%Q as Hpos.
  { unfold n. change 0%Q with (inject_Z 0). rewrite <- Zlt_Qlt. lia. }
  assert (Qis_zero n = false) as ->.
  { unfold Qis_zero, n. cbn [Qnum inject_Z]. apply Z.eqb_neq. lia. }
  eexists. split; [reflexivity|]. rewrite Qred_correct.
  assert (q == (q / n) * n)%Q as En by (field; lra).
  split; [|split].
  - apply Qle_shift_div_l; [exact Hpos | lra].
  - intro H0. apply Hiff. rewrite En, H0. lra.
  - intro H0. apply Hiff in H0. rewrite H0. unfold Qdiv. lra.
Qed.

Lemma mean_squared_error_nonnegative_witness :
  exists q : Q,
    Finite (5 # 2) = Finite q /\ (0 <= q)%Q /\
    ((q == 0)%Q <->
     Forall2 (fun t p => fsub t p = Finite 0)
       [Finite 1; Finite 3] [Finite 2; Finite 1]).
Proof.
  apply (mean_squared_error_nonnegative [Finite 1; Finite 3] [Finite 2; Finite 1]).
  vm_compute. reflexivity.
Defined.

(** Every value of a column of the dataset is a value of the column in one of
    the two parts. *)
Lemma split_covers_column (n n_train n_test : nat) (perm : list nat)
    (col : Series) (v : float64) :
  Permutation perm (seq 0 n) ->
  List.length col = n ->
  In v col ->
  In v (take NaN (firstn n_train (skipn n_test perm)) col) \/
  In v (take NaN (firstn n_test perm) col) \/
  n_train + n_test < n.
Proof.
  intros HP Hc Hv.
  destruct (le_lt_dec n (n_train + n_test)) as [Hsum|Hsum]; [|right; now right].
  assert (List.length perm = n) as Hlen
      by (rewrite (Permutation_length HP); apply length_seq).
  assert (firstn n_train (skipn n_test perm) = skipn n_test perm) as ->.
  { apply firstn_all2. rewrite length_skipn. lia. }
  destruct (In_nth col v NaN Hv) as (i & Hi & <-).
  assert (In i perm) as Hin.
  { apply (Permutation_in _ (Permutation_sym HP)). apply in_seq. lia. }
  rewrite <- (firstn_skipn n_test perm) in Hin. apply in_app_or in Hin.
  unfold take. destruct Hin as [Hin|Hin]; [right; left | left];
    apply (in_map (fun i => nth i col NaN)); assumption.
Qed.

Lemma check_matrix_iloc (X : DataFrame) (positions : list nat)
    (key : string) (col : Series) (v : float64) :
  check_matrix (iloc X positions) = Ok tt ->
  In (key, col) (columns X) ->
  In v (take NaN positions col) ->
  isfinite v = true.
Proof.
  unfold check_matrix. intros H Hc Hv.
  destruct (forallb (fun c => forallb isfinite (snd c)) (columns (iloc X positions)))
    eqn:E; cbn [negb] in H; [|discriminate].
  rewrite forallb_forall in E.
  specialize (E (key, take NaN positions col)). cbn [snd] in E.
  rewrite forallb_forall in E. apply E; [|exact Hv].
  unfold iloc. cbn [columns].
  apply (in_map (fun c => (fst c, take NaN positions (snd c))) _ (key, col)).
  exact Hc.
Qed.

(** When cells 2 to 6 report an error it is a finite number that is not
    negative, and the regression was fitted to clean data: the fit matrix
    had at least two records and no missing or infinite entry, neither among
    the features nor among the targets. *)
Theorem reported_error_means_clean_fit (lstsq : solver) (data : DataFrame)
    (global : mt19937_state) (mse : float64) :
  well_formed data ->
  notebook_mse lstsq data global = Ok mse ->
  exists (X : DataFrame) (y : Series) (q : Q),
    fit_matrix data = Ok (X, y) /\
    2 <= nrows X /\
    (forall key col v, getitem X key = Ok col -> In v col -> isfinite v = true) /\
    (forall v, In v y -> isfinite v = true) /\
    mse = Finite q /\ (0 <= q)%Q.
Proof.
  intros WF H. unfold notebook_mse, notebook in H.
  destruct (fit_matrix data) as [[X y]|e|] eqn:HF; cbn [bind fst] in H;
    try discriminate H.
  destruct (fst (train_test_split X y test_size (Some random_state) global))
    as [[[[X_train X_test] y_train] y_test]|e0|] eqn:Es; cbn [bind] in H;
    try discriminate H.
  pose proof (linear_regression_model_cases lstsq X_train X_test y_train y_test) as HC.
  rewrite H in HC. destruct HC as (Mtrain & Mtest & Ftrain & y_pred & HM).
  pose proof (mean_squared_error_cases y_test y_pred) as HM'.
  rewrite HM in HM'. destruct HM' as (Hl & Ftest & Fpred & Hn & ->).
  destruct (sum_squared_differences y_test y_pred 0 Hl Ftest Fpred)
    as (q & Eq & Hq & _).
  destruct (train_test_split_Ok _ _ _ _ _ Es)
    as (n_train & n_test & rng & perm & rng' & Hy & Hv & _ & Hp & E).
  injection E as -> -> -> ->.
  destruct (_validate_shuffle_split_Ok _ _ _ Hv) as (Hfifth & Hsum & Hpos).
  pose proof (permutation_Permutation _ _ _ _ Hp) as HP.
  destruct (fit_matrix_well_formed _ _ _ WF HF) as ((_ & _ & Wc) & _).
  rewrite Forall_forall in Wc.
  exists X, y. eexists. split; [reflexivity|].
  split; [lia|]. split; [|split].
  - intros key col v Hg Hin. apply getitem_Ok, lookup_In in Hg.
    pose proof (Wc _ Hg) as Hlen. cbn [snd] in Hlen.
    destruct (split_covers_column _ n_train n_test _ _ _ HP Hlen Hin) as [Hc|[Hc|Hc]].
    + exact (check_matrix_iloc _ _ _ _ _ Mtrain Hg Hc).
    + exact (check_matrix_iloc _ _ _ _ _ Mtest Hg Hc).
    + lia.
  - intros v Hin.
    destruct (split_covers_column _ n_train n_test _ _ _ HP Hy Hin) as [Hc|[Hc|Hc]].
    + rewrite forallb_forall in Ftrain. now apply Ftrain.
    + rewrite forallb_forall in Ftest. now apply Ftest.
    + lia.
  - unfold fsum. rewrite Eq. cbn [fdiv].
    set (n := inject_Z (Z.of_nat (List.length (take NaN (firstn n_test perm) y)))).
    assert (0 < n)%Q as Hnpos.
    { unfold n. change 0%Q with (inject_Z 0). rewrite <- Zlt_Qlt. lia. }
    assert (Qis_zero n = false) as ->.
    { unfold Qis_zero, n. cbn [Qnum inject_Z]. apply Z.eqb_neq. lia. }
    split; [reflexivity|]. rewrite Qred_correct.
    apply Qle_shift_div_l; [exact Hnpos | lra].
Qed.

Lemma reported_error_means_clean_fit_witness :
  exists (X : DataFrame) (y : Series) (q : Q),
    fit_matrix ten_records = Ok (X, y) /\
    2 <= nrows X /\
    (forall key col v, getitem X key = Ok col -> In v col -> isfinite v = true) /\
    (forall v, In v y -> isfinite v = true) /\
    Finite (8263333 # 10368) = Finite q /\ (0 <= q)%Q.
Proof.
  apply (reported_error_means_clean_fit flat_solver ten_records some_global).
  - repeat split.
    + vm_compute. distinct_entries.
    + vm_compute. distinct_entries.
    + vm_compute. repeat (constructor; [reflexivity|]). constructor.
  - vm_compute. reflexivity.
Defined.

(** * Beyond the claims: what the notebook reads *)

Lemma getitem_columns_ext (df1 df2 : DataFrame) (keys : list string) :
  (forall k, In k keys -> getitem df1 k = getitem df2 k) ->
  getitem_columns df1 keys = getitem_columns df2 keys.
Proof.
  induction keys as [|k keys IH]; intro H; [reflexivity|].
  cbn [getitem_columns].
  rewrite (H k (or_introl eq_refl)), IH; [reflexivity|].
  intros k' Hk'. apply H. now right.
Qed.

(** Cells 2 to 4 read the row labels and the eighteen feature columns of
    the table, and nothing else: two tables that agree on these give the same
    fit matrix and targets, or fail with the same [KeyError].  A column the
    notebook does not list, and a Target column already in the file, have
    no effect; in particular a missing value there removes no record. *)
Theorem fit_matrix_reads_features_only (data1 data2 : DataFrame) :
  index data1 = index data2 ->
  (forall k, In k features -> getitem data1 k = getitem data2 k) ->
  fit_matrix data1 = fit_matrix data2.
Proof.
  intros Hi Hf.
  assert (In uptake_vol features) as Hu by (vm_compute; tauto).
  assert (In pore_volume features) as Hp by (vm_compute; tauto).
  unfold fit_matrix, load_and_prepare_data.
  rewrite (Hf _ Hu), (Hf _ Hp).
  destruct (getitem data2 uptake_vol) as [u|e|]; cbn [bind]; try reflexivity.
  destruct (getitem data2 pore_volume) as [p|e|]; cbn [bind]; try reflexivity.
  rewrite !getitem_setitem_eq. cbn [bind].
  unfold feature_engineering, getitem_list.
  rewrite (getitem_columns_ext
             (setitem (setitem data1 "Target" (target_expr u p)) "Target"
                (mul_scalar (target_expr u p) two))
             (setitem (setitem data2 "Target" (target_expr u p)) "Target"
                (mul_scalar (target_expr u p) two))).
  - cbn [setitem index]. rewrite Hi. reflexivity.
  - intros k Hk.
    destruct (String.eqb_spec k "Target") as [->|N].
    + now rewrite !getitem_setitem_eq.
    + rewrite !getitem_setitem_neq by exact N.
      apply Hf. apply In_features. now split.
Qed.

Lemma fit_matrix_reads_features_only_witness :
  fit_matrix (setitem (setitem five_records "name" [NaN; NaN; NaN; NaN; NaN])
                "Target" [NaN; NaN; NaN; NaN; NaN]) =
  fit_matrix five_records.
Proof.
  apply fit_matrix_reads_features_only.
  - reflexivity.
  - intros k Hk. rewrite !getitem_setitem_neq; [reflexivity| |].
    + intros ->. vm_compute in Hk. intuition discriminate.
    + intros ->. vm_compute in Hk. intuition discriminate.
Defined.
